(** * Rule-based order-slicing strategies (qlib/contrib/strategy/rule_strategy.py)

    A shallow embedding of [TWAPStrategy], [SBBStrategy] and
    [SBBEMAStrategy], with the properties stated about them.

    Conventions of the embedding:
    - a Python [int] is a [Z]; [//] is floor division, which is [Z.div];
    - a timestamp is a number of seconds ([Z]), so that subtracting
      [pd.Timedelta(seconds=1)] is [t - 1];
    - a Python float ([Order.factor], a cell of the signal frame) is a
      [spec_float];
    - a [dict] keyed by [(stock_id, direction)] is a [gmap];
    - an exception is a [Raise] in the [Result] monad;
    - [self] is threaded explicitly as a [Strategy] record.

    The source is read for what it computes: the missing colon at the end
    of the last [if] of [SBBStrategy.generate_order_list], the unqualified
    [TREND_MID], and the dictionary [trade_trend] that [__init__] fills
    without creating it (it creates [trade_delay]) are read as the
    evident intent. *)

From Stdlib Require Import ZArith Lia.
From Stdlib Require Import Floats.SpecFloat.
From stdpp Require Import gmap strings list fin_maps.

Local Open Scope Z_scope.

(** ** Exceptions and the result monad *)

Inductive Exception : Type :=
  | ZeroDivisionError
  | KeyError
  | IndexError
  | NotImplementedError
  | InvalidWindow
  | DuplicateKey.

Inductive Result (A : Type) : Type :=
  | Ok (a : A)
  | Raise (e : Exception).
Arguments Ok {A} a.
Arguments Raise {A} e.

#[global] Instance Result_ret : MRet Result := fun A a => Ok a.
#[global] Instance Result_bind : MBind Result := fun A B f m =>
  match m with
  | Ok a => f a
  | Raise e => Raise e
  end.

(** [for order in l: body], threading the loop state [s]. *)
Fixpoint for_each {A S : Type} (l : list A) (s : S) (body : A → S → Result S)
  : Result S :=
  match l with
  | [] => Ok s
  | x :: l' => s' ← body x s; for_each l' s' body
  end.

(** ** Python primitives *)

(** [l[i]] on a sequence, negative indices counting from the end. *)
Definition py_getitem {A : Type} (l : list A) (i : Z) : Result A :=
  let n := Z.of_nat (length l) in
  let j := if i <? 0 then i + n else i in
  if (0 <=? j) && (j <? n)
  then match l !! Z.to_nat j with
       | Some x => Ok x
       | None => Raise IndexError
       end
  else Raise IndexError.

(** [d[k]] on a dictionary. *)
Definition dict_getitem `{Countable K} {V : Type} (d : gmap K V) (k : K)
  : Result V :=
  match d !! k with
  | Some v => Ok v
  | None => Raise KeyError
  end.

(** [a // b] on integers. *)
Definition py_floordiv (a b : Z) : Result Z :=
  if b =? 0 then Raise ZeroDivisionError else Ok (a / b).

(** ** Data model *)

Definition Time : Type := Z.

(** [Order.SELL] and [Order.BUY]. *)
Inductive Direction : Type := SELL | BUY.

#[global] Instance Direction_eq_dec : EqDecision Direction.
Proof. solve_decision. Defined.

#[global] Instance Direction_countable : Countable Direction.
Proof.
  refine (inj_countable' (λ d, match d with SELL => false | BUY => true end)
                         (λ b : bool, if b then BUY else SELL) _).
  by intros [].
Defined.

(** The class constants of [SBBStrategy]. *)
Inductive Trend : Type := TREND_MID | TREND_SHORT | TREND_LONG.

#[global] Instance Trend_eq_dec : EqDecision Trend.
Proof. solve_decision. Defined.

(** [Order]: parent orders and child orders are of the same class. *)
Record Order : Type := mkOrder {
  stock_id : string;
  amount : Z;
  start_time : Time;
  end_time : Time;
  direction : Direction;
  factor : spec_float;
}.

Abbreviation TradeKey := (string * Direction)%type.

(** The dictionary key [(order.stock_id, order.direction)]. *)
Definition key_of (order : Order) : TradeKey :=
  (stock_id order, direction order).

(** The attributes of [self] the strategies use. *)
Record Strategy : Type := mkStrategy {
  trade_dates : list Time;
  trade_len : Z;
  trade_index : Z;
  trade_order_list : list Order;
  trade_amount : gmap TradeKey Z;
  trade_trend : gmap TradeKey Trend;
}.

Definition set_trade_index (self : Strategy) (i : Z) : Strategy :=
  mkStrategy (trade_dates self) (trade_len self) i
             (trade_order_list self) (trade_amount self) (trade_trend self).

Definition set_trade_order_list (self : Strategy) (l : list Order) : Strategy :=
  mkStrategy (trade_dates self) (trade_len self) (trade_index self)
             l (trade_amount self) (trade_trend self).

Definition set_trade_amount (self : Strategy) (m : gmap TradeKey Z) : Strategy :=
  mkStrategy (trade_dates self) (trade_len self) (trade_index self)
             (trade_order_list self) m (trade_trend self).

Definition set_trade_trend (self : Strategy) (m : gmap TradeKey Trend) : Strategy :=
  mkStrategy (trade_dates self) (trade_len self) (trade_index self)
             (trade_order_list self) (trade_amount self) m.

(** ** The base classes *)

(** The calendar the bar generator hands over: the boundary timestamps and
    the number of steps. *)
Record Calendar : Type := mkCalendar {
  cal_dates : list Time;
  cal_len : Z;
}.

(** Whether each boundary is earlier than the next. *)
Fixpoint strictly_increasing (dates : list Time) : bool :=
  match dates with
  | t1 :: ((t2 :: _) as rest) => (t1 <? t2) && strictly_increasing rest
  | _ => true
  end.

(** A calendar of [N] steps is a strictly increasing sequence of [N + 1]
    boundaries. *)
Definition calendar_wf (cal : Calendar) : Prop :=
  Z.of_nat (length (cal_dates cal)) = cal_len cal + 1 ∧
  strictly_increasing (cal_dates cal) = true.

(** Modelled from the spec: the [reset] of the rule-strategy base class,
    called first by [reset] (lines 26 and 70), which is not in this file
    of the source.  It binds the calendar and puts the cursor before step
    1; it fails with [InvalidWindow] on a step count that is not positive
    and on boundaries that are not a strictly increasing sequence of one
    more than the step count (a malformed time range, a window not
    partitioned into that many steps). *)
Definition RuleStrategy_reset (cal : Calendar) : Result Strategy :=
  if (0 <? cal_len cal)
     && (Z.of_nat (length (cal_dates cal)) =? cal_len cal + 1)
     && strictly_increasing (cal_dates cal)
  then Ok (mkStrategy (cal_dates cal) (cal_len cal) 0 [] ∅ ∅)
  else Raise InvalidWindow.

(** Modelled from the spec: the [reset] of [TradingEnhancement], called
    second by [reset] (lines 27 and 71), which is not in this file of the
    source.  It binds the list of parent orders; it fails with
    [DuplicateKey] when two parent orders have the same stock and
    direction. *)
Definition TradingEnhancement_reset (self : Strategy)
    (trade_order_list : list Order) : Result Strategy :=
  if bool_decide (NoDup (key_of <$> trade_order_list))
  then Ok (set_trade_order_list self trade_order_list)
  else Raise DuplicateKey.

(** [reset], the same in [TWAPStrategy] and [SBBStrategy]: the two base
    calls, in the order of the source. *)
Definition reset (cal : Calendar) (orders : list Order) : Result Strategy :=
  self ← RuleStrategy_reset cal;
  TradingEnhancement_reset self orders.

(** Modelled from the spec: the [generate_order_list] of the base class,
    which is not in this file of the source.  It advances the calendar
    cursor to the step being generated. *)
Definition base_generate_order_list (self : Strategy) : Strategy :=
  set_trade_index self (trade_index self + 1).

(** ** TWAPStrategy *)

Module TWAPStrategy.

(** [__init__]: the loop fills [trade_amount]. *)
Definition __init__ (cal : Calendar) (orders : list Order) : Result Strategy :=
  self ← reset cal orders;
  amounts ← for_each (trade_order_list self) (∅ : gmap TradeKey Z)
    (λ order amounts,
       q ← py_floordiv (amount order) (trade_len self);
       Ok (<[key_of order := q]> amounts));
  Ok (set_trade_amount self amounts).

(** [generate_order_list]. *)
Definition generate_order_list (self : Strategy)
  : Result (list Order * Strategy) :=
  let self := base_generate_order_list self in
  trade_start_time ← py_getitem (trade_dates self) (trade_index self - 1);
  trade_end_time ← py_getitem (trade_dates self) (trade_index self);
  order_list ← for_each (trade_order_list self) []
    (λ order order_list,
       a ← dict_getitem (trade_amount self) (key_of order);
       Ok (order_list ++
             [mkOrder (stock_id order) a trade_start_time trade_end_time
                      (direction order) (factor order)]));
  Ok (order_list, self).

(** [n] successive calls, collecting what each returns. *)
Fixpoint run (n : nat) (self : Strategy)
  : Result (list (list Order) * Strategy) :=
  match n with
  | O => Ok ([], self)
  | S n' =>
      '(out, self) ← generate_order_list self;
      '(outs, self) ← run n' self;
      Ok (out :: outs, self)
  end.

End TWAPStrategy.

(** ** SBBStrategy *)

(** One call of [_pred_price_trend]: the arguments it receives. *)
Abbreviation PredCall := (string * option Time * option Time)%type.

(** The hook [_pred_price_trend(stock_id, pred_start_time, pred_end_time)]. *)
Abbreviation PredictorHook :=
  (string → option Time → option Time → Result Trend).

Module SBBStrategy.

(** [__init__]: the loop fills [trade_amount] and [trade_trend]. *)
Definition __init__ (cal : Calendar) (orders : list Order) : Result Strategy :=
  self ← reset cal orders;
  '(amounts, trends) ← for_each (trade_order_list self)
    ((∅ : gmap TradeKey Z), trade_trend self)
    (λ order '(amounts, trends),
       q ← py_floordiv (amount order) (trade_len self);
       Ok (<[key_of order := q]> amounts,
           <[key_of order := TREND_MID]> trends));
  Ok (set_trade_trend (set_trade_amount self amounts) trends).

(** [_pred_price_trend] of the base class. *)
Definition _pred_price_trend : PredictorHook :=
  λ _ _ _, Raise NotImplementedError.

(** The child order built in each of the three emitting branches. *)
Definition child (order : Order) (a : Z) (trade_start_time trade_end_time : Time)
  : Order :=
  mkOrder (stock_id order) a trade_start_time trade_end_time
          (direction order) (factor order).

(** The body of the loop of [generate_order_list] for one parent order.
    The loop state is the list being built, [self.trade_trend], and the
    calls made to the hook so far. *)
Definition loop_body (pred : PredictorHook) (self : Strategy)
    (trade_start_time trade_end_time : Time) (order : Order)
    (s : list Order * gmap TradeKey Trend * list PredCall)
  : Result (list Order * gmap TradeKey Trend * list PredCall) :=
  let '(order_list, trends, calls) := s in
  let odd := trade_index self `mod` 2 =? 1 in
  '(_pred_trend, calls) ←
    (if odd
     then t ← pred (stock_id order) None None;
          Ok (t, calls ++ [(stock_id order, None, None)])
     else t ← dict_getitem trends (key_of order);
          Ok (t, calls));
  order_list ←
    (if decide (_pred_trend = TREND_MID)
     then a ← dict_getitem (trade_amount self) (key_of order);
          Ok (order_list ++ [child order a trade_start_time trade_end_time])
     else if odd
     then if bool_decide (_pred_trend = TREND_SHORT ∧ direction order = SELL
                          ∨ _pred_trend = TREND_LONG ∧ direction order = BUY)
          then a ← dict_getitem (trade_amount self) (key_of order);
               Ok (order_list ++
                     [child order (2 * a) trade_start_time trade_end_time])
          else Ok order_list
     else if bool_decide (_pred_trend = TREND_SHORT ∧ direction order = BUY
                          ∨ _pred_trend = TREND_LONG ∧ direction order = SELL)
          then a ← dict_getitem (trade_amount self) (key_of order);
               Ok (order_list ++
                     [child order (2 * a) trade_start_time trade_end_time])
          else Ok order_list);
  let trends := if odd then <[key_of order := _pred_trend]> trends else trends in
  Ok (order_list, trends, calls).

(** The prediction window computed before the loop. *)
Definition pred_window (self : Strategy) (trade_start_time : Time)
  : Result (option Time * option Time) :=
  if trade_index self =? 1
  then Ok (None, Some (trade_start_time - 1))
  else d ← py_getitem (trade_dates self) (trade_index self - 2);
       Ok (Some d, Some (trade_start_time - 1)).

(** [generate_order_list(trade_start_time, trade_end_time)]: the child
    orders, [self] afterwards, and the calls made to the hook. *)
Definition generate_order_list (pred : PredictorHook) (self : Strategy)
    (trade_start_time trade_end_time : Time)
  : Result (list Order * Strategy * list PredCall) :=
  let self := base_generate_order_list self in
  '(pred_start_time, pred_end_time) ← pred_window self trade_start_time;
  '(order_list, trends, calls) ←
    for_each (trade_order_list self) ([], trade_trend self, [])
             (loop_body pred self trade_start_time trade_end_time);
  Ok (order_list, set_trade_trend self trends, calls).

(** Modelled from the spec: the owning loop, which is not in this file of
    the source.  It calls [generate_order_list] once per step, with the
    calendar bounds of the step being generated. *)
Definition step (pred : PredictorHook) (self : Strategy)
  : Result (list Order * Strategy * list PredCall) :=
  trade_start_time ← py_getitem (trade_dates self) (trade_index self);
  trade_end_time ← py_getitem (trade_dates self) (trade_index self + 1);
  generate_order_list pred self trade_start_time trade_end_time.

(** [n] successive steps, collecting what each returns. *)
Fixpoint run (pred : PredictorHook) (n : nat) (self : Strategy)
  : Result (list (list Order) * Strategy) :=
  match n with
  | O => Ok ([], self)
  | S n' =>
      '(out, self, _) ← step pred self;
      '(outs, self) ← run pred n' self;
      Ok (out :: outs, self)
  end.

(** Successive calls of [generate_order_list], one for each pair of step
    times the caller passes, collecting what each returns. *)
Fixpoint run_with (pred : PredictorHook) (bounds : list (Time * Time))
    (self : Strategy) : Result (list (list Order) * Strategy) :=
  match bounds with
  | [] => Ok ([], self)
  | (trade_start_time, trade_end_time) :: bounds' =>
      '(out, self, _) ←
        generate_order_list pred self trade_start_time trade_end_time;
      '(outs, self) ← run_with pred bounds' self;
      Ok (out :: outs, self)
  end.

End SBBStrategy.

(** ** SBBEMAStrategy *)

(** The frame [sample_feature] returns: its rows, each a list of cells. *)
Abbreviation DataFrame := (list (list spec_float)).

(** [df.empty]: some axis has length 0. *)
Definition df_empty (df : DataFrame) : bool :=
  match df with
  | [] => true
  | [] :: _ => true
  | (_ :: _) :: _ => false
  end.

(** [df.iloc[0, 0]]. *)
Definition df_iloc00 (df : DataFrame) : Result spec_float :=
  match df with
  | (x :: _) :: _ => Ok x
  | _ => Raise IndexError
  end.

(** [x > 0] on floats: false on NaN. *)
Definition float_gt0 (x : spec_float) : bool := SFltb (S754_zero false) x.

Module SBBEMAStrategy.
Section Hook.

(** [self.signal] and the function [sample_feature] of [qlib.utils],
    called with [fields="signal", method="last"]; neither is in this
    file of the source. *)
Variable Signal : Type.
Variable sample_feature :
  Signal → string → option Time → option Time → DataFrame.

(** [_pred_price_trend]. *)
Definition _pred_price_trend (signal : Signal) : PredictorHook :=
  λ stock_id pred_start_time pred_end_time,
    let _sample_signal :=
      sample_feature signal stock_id pred_start_time pred_end_time in
    if df_empty _sample_signal then Ok TREND_MID
    else x ← df_iloc00 _sample_signal;
         if float_gt0 x then Ok TREND_LONG else Ok TREND_SHORT.

End Hook.
End SBBEMAStrategy.

(** ** Vocabulary of the properties *)

(** The child orders of one call that belong to key [k]. *)
Definition for_key (k : TradeKey) (out : list Order) : list Order :=
  filter (λ c, key_of c = k) out.

Definition Zsum (l : list Z) : Z := foldr Z.add 0 l.

(** The amount emitted for key [k] over several calls. *)
Definition total_for (k : TradeKey) (outs : list (list Order)) : Z :=
  Zsum ((λ out, Zsum (amount <$> for_key k out)) <$> outs).

(** The dictionary after the assignments [d[key_of o] = f o] for [o] in
    [l], in order: a later assignment to the same key replaces an earlier
    one. *)
Definition assign_all {V : Type} (f : Order → V) (l : list Order)
    (d : gmap TradeKey V) : gmap TradeKey V :=
  foldl (λ d o, <[key_of o := f o]> d) d l.

(** Every parent order has its entry in [trade_amount]. *)
Definition registered (self : Strategy) : Prop :=
  ∀ o, o ∈ trade_order_list self → is_Some (trade_amount self !! key_of o).

(** The child order TWAP builds for a parent order. *)
Definition TWAP_child (self : Strategy) (tst tet : Time) (o : Order) : list Order :=
  match trade_amount self !! key_of o with
  | Some a => [mkOrder (stock_id o) a tst tet (direction o) (factor o)]
  | None => []
  end.

(** The factor 1.0. *)
Definition f_one : spec_float := S754_finite false 1 0.

(** What one iteration of the loop appends to [order_list] when it works
    with trend [t] for the parent order [o], of base amount [a]. *)
Definition SBB_emit (odd : bool) (t : Trend) (tst tet : Time) (o : Order) (a : Z)
  : list Order :=
  match t, odd, direction o with
  | TREND_MID, _, _ => [SBBStrategy.child o a tst tet]
  | TREND_SHORT, true, SELL
  | TREND_LONG, true, BUY
  | TREND_SHORT, false, BUY
  | TREND_LONG, false, SELL => [SBBStrategy.child o (2 * a) tst tet]
  | _, _, _ => []
  end.

(** The same, with the trend and the base amount looked up. *)
Definition SBB_children (odd : bool) (self : Strategy)
    (trend_of : Order → option Trend) (tst tet : Time) (o : Order) : list Order :=
  match trend_of o, trade_amount self !! key_of o with
  | Some t, Some a => SBB_emit odd t tst tet o a
  | _, _ => []
  end.

(** Every parent order has its entry in [trade_trend]. *)
Definition trend_registered (self : Strategy) : Prop :=
  ∀ o, o ∈ trade_order_list self → is_Some (trade_trend self !! key_of o).

(** The hook answers [p stock_id] for the stocks of [l] when called as the
    loop calls it. *)
Definition answers (pred : PredictorHook) (p : string → Trend) (l : list Order)
  : Prop :=
  ∀ o, o ∈ l → pred (stock_id o) None None = Ok (p (stock_id o)).

(** A TWAP strategy and an SBB strategy at the same point of the same run,
    with every stored trend MID. *)
Definition MID_related (self_t self_s : Strategy) : Prop :=
  trade_dates self_s = trade_dates self_t ∧
  trade_index self_s = trade_index self_t ∧
  trade_order_list self_s = trade_order_list self_t ∧
  trade_amount self_s = trade_amount self_t ∧
  ∀ o, o ∈ trade_order_list self_t →
    trade_trend self_s !! key_of o = Some TREND_MID.

(** A hook that tells the call with the window of step 3 of the calendar
    [0; 60; 120; 180] from every other call. *)
Definition hook_LONG_on_window : PredictorHook :=
  λ _ pred_start_time pred_end_time,
    match pred_start_time, pred_end_time with
    | Some 60, Some 119 => Ok TREND_LONG
    | _, _ => Ok TREND_MID
    end.

(** A float above zero: a positive finite number or plus infinity. *)
Definition float_positive (x : spec_float) : Prop :=
  match x with
  | S754_infinity false | S754_finite false _ _ => True
  | _ => False
  end.

(** A calendar of three steps of one minute. *)
Definition ex_cal : Calendar := mkCalendar [0; 60; 120; 180] 3.

(** Two parent orders on one stock, one per direction. *)
Definition ex_buy : Order := mkOrder "A" 100 0 180 BUY f_one.
Definition ex_sell : Order := mkOrder "A" 50 0 180 SELL f_one.
Definition ex_orders : list Order := [ex_buy; ex_sell].

(** The SBB strategy registered on them, before step 1. *)
Definition ex_self : Strategy :=
  mkStrategy [0; 60; 120; 180] 3 0 ex_orders
    {[ ("A", BUY) := 33; ("A", SELL) := 16 ]}
    {[ ("A", BUY) := TREND_MID; ("A", SELL) := TREND_MID ]}.

(** Hooks that always give the same answer. *)
Definition hook_const (t : Trend) : PredictorHook := λ _ _ _, Ok t.

Ltac by_decide := refine (bool_decide_unpack _ _); vm_compute; exact I.

Ltac each_order :=
  let o := fresh "o" in
  let Ho := fresh "Ho" in
  intros o Ho;
  repeat (apply elem_of_cons in Ho as [->|Ho]);
  [.. | by apply elem_of_nil in Ho];
  first [reflexivity | eexists; reflexivity].

(** The amount one call of SBB emits for a parent order of direction [d]
    and base amount [a] when it works with trend [t]. *)
Definition SBB_step_amount (odd : bool) (t : Trend) (d : Direction) (a : Z) : Z :=
  match t, odd, d with
  | TREND_MID, _, _ => a
  | TREND_SHORT, true, SELL
  | TREND_LONG, true, BUY
  | TREND_SHORT, false, BUY
  | TREND_LONG, false, SELL => 2 * a
  | _, _, _ => 0
  end.

(** The amount [n] successive calls emit for it, the first one for an odd
    step when [odd] is set. *)
Fixpoint SBB_run_amount (odd : bool) (n : nat) (t : Trend) (d : Direction) (a : Z)
  : Z :=
  match n with
  | O => 0
  | S n' => SBB_step_amount odd t d a + SBB_run_amount (negb odd) n' t d a
  end.

(** Whether the call to come is for an odd step. *)
Definition next_odd (self : Strategy) : bool :=
  (trade_index self + 1) `mod` 2 =? 1.

(** What a run of SBB keeps, for a hook that answers [p]: every parent
    order is registered, and when the call to come is for an even step
    the trend stored for every parent order is the answer of the hook. *)
Definition SBB_inv (p : string → Trend) (self : Strategy) : Prop :=
  registered self ∧
  (next_odd self = false →
   ∀ o, o ∈ trade_order_list self →
     trade_trend self !! key_of o = Some (p (stock_id o))).

(** * Properties *)

(** ** The result monad and the loops *)

Lemma bind_Ok {A B : Type} (a : A) (f : A → Result B) : (Ok a ≫= f) = f a.
Proof. reflexivity. Qed.

Lemma bind_inv {A B : Type} (m : Result A) (f : A → Result B) (b : B) :
  (m ≫= f) = Ok b → ∃ a, m = Ok a ∧ f a = Ok b.
Proof. destruct m as [a|e]; [eauto | discriminate]. Qed.

(** A property of the loop state that every iteration keeps holds when
    the loop ends. *)
Lemma for_each_inv {A S : Type} (I : S → Prop) (body : A → S → Result S) l :
  ∀ s s',
    I s →
    (∀ x s1 s2, x ∈ l → I s1 → body x s1 = Ok s2 → I s2) →
    for_each l s body = Ok s' → I s'.
Proof.
  induction l as [|x l IH]; intros s s' Hs Hbody Hrun; simpl in Hrun.
  - by injection Hrun as <-.
  - apply bind_inv in Hrun as (s1 & Hx & Hrun).
    apply (IH s1 s'); [| |done].
    + apply (Hbody x s s1); [apply list_elem_of_here|done..].
    + intros y t1 t2 Hy. apply Hbody. by apply list_elem_of_further.
Qed.

Lemma dict_getitem_Some `{Countable K} {V : Type} (d : gmap K V) k v :
  d !! k = Some v → dict_getitem d k = Ok v.
Proof. intros Hk. unfold dict_getitem. by rewrite Hk. Qed.

Lemma py_getitem_in_range {A : Type} (l : list A) (i : Z) :
  0 ≤ i < Z.of_nat (length l) → ∃ x, py_getitem l i = Ok x ∧ l !! Z.to_nat i = Some x.
Proof.
  intros Hi. unfold py_getitem.
  destruct (Z.ltb_spec i 0); [lia|].
  destruct (Z.leb_spec 0 i); [|lia].
  destruct (Z.ltb_spec i (Z.of_nat (length l))); [|lia]. simpl.
  destruct (lookup_lt_is_Some_2 l (Z.to_nat i)) as [x Hx]; [lia|].
  rewrite Hx. eauto.
Qed.

Lemma py_getitem_beyond {A : Type} (l : list A) (i : Z) :
  Z.of_nat (length l) ≤ i → py_getitem l i = Raise IndexError.
Proof.
  intros Hi. unfold py_getitem.
  destruct (Z.ltb_spec i 0); [lia|].
  destruct (Z.ltb_spec i (Z.of_nat (length l))); [lia|].
  by rewrite andb_false_r.
Qed.

Lemma py_getitem_cases {A : Type} (l : list A) (i : Z) :
  (∃ x, py_getitem l i = Ok x) ∨ py_getitem l i = Raise IndexError.
Proof.
  unfold py_getitem.
  destruct (_ && _); [|by right].
  destruct (l !! _); [left; eauto | by right].
Qed.

(** ** Registration: what [__init__] leaves in the dictionaries *)

Lemma assign_all_other {V : Type} (f : Order → V) l d k :
  k ∉ key_of <$> l → assign_all f l d !! k = d !! k.
Proof.
  unfold assign_all. revert d. induction l as [|o l IH]; intros d Hnot; simpl; [done|].
  rewrite fmap_cons in Hnot. apply not_elem_of_cons in Hnot as [Hne Hnot].
  rewrite IH by done. by apply lookup_insert_ne.
Qed.

Lemma assign_all_last {V : Type} (f : Order → V) l1 o l2 d :
  key_of o ∉ key_of <$> l2 →
  assign_all f (l1 ++ o :: l2) d !! key_of o = Some (f o).
Proof.
  intros Hnot. unfold assign_all. rewrite foldl_app. simpl.
  fold (assign_all f l1 d).
  fold (assign_all f l2 (<[key_of o := f o]> (assign_all f l1 d))).
  rewrite assign_all_other by done. apply lookup_insert_eq.
Qed.

Lemma assign_all_NoDup {V : Type} (f : Order → V) l o d :
  NoDup (key_of <$> l) → o ∈ l →
  assign_all f l d !! key_of o = Some (f o).
Proof.
  intros Hnd Ho. apply list_elem_of_split in Ho as (l1 & l2 & ->).
  apply assign_all_last.
  rewrite fmap_app, fmap_cons in Hnd.
  apply NoDup_app in Hnd as (_ & _ & Hnd). by apply NoDup_cons in Hnd as [? _].
Qed.

Lemma assign_all_is_Some {V : Type} (f : Order → V) l o d :
  o ∈ l → is_Some (assign_all f l d !! key_of o).
Proof.
  unfold assign_all. revert d. induction l as [|o' l IH] using rev_ind; intros d Ho.
  - by apply elem_of_nil in Ho.
  - rewrite foldl_app. simpl. apply elem_of_app in Ho as [Ho|Ho].
    + destruct (decide (key_of o' = key_of o)) as [->|Hne].
      * rewrite lookup_insert_eq. eauto.
      * rewrite lookup_insert_ne by done. by apply IH.
    + apply list_elem_of_singleton in Ho as ->. rewrite lookup_insert_eq. eauto.
Qed.

(** When the same value is assigned at every occurrence of a key, the
    order of the assignments does not matter. *)
Lemma assign_all_uniform {V : Type} (f : Order → V) (g : TradeKey → V) l o d :
  (∀ o', o' ∈ l → f o' = g (key_of o')) → o ∈ l →
  assign_all f l d !! key_of o = Some (g (key_of o)).
Proof.
  unfold assign_all. revert d. induction l as [|o' l IH] using rev_ind; intros d Hf Ho.
  - by apply elem_of_nil in Ho.
  - rewrite foldl_app. simpl.
    destruct (decide (key_of o' = key_of o)) as [Heq|Hne].
    + rewrite Heq, lookup_insert_eq, <- Heq. f_equal. apply Hf.
      apply elem_of_app. right. apply list_elem_of_here.
    + rewrite lookup_insert_ne by done. apply IH.
      * intros o'' Ho''. apply Hf. apply elem_of_app. by left.
      * apply elem_of_app in Ho as [Ho|Ho]; [done|].
        apply list_elem_of_singleton in Ho. by subst.
Qed.

Lemma py_floordiv_Ok (a b : Z) : b ≠ 0 → py_floordiv a b = Ok (a / b).
Proof. intros Hb. unfold py_floordiv. by destruct (Z.eqb_spec b 0). Qed.

Lemma TWAP_init_loop (len : Z) (l : list Order) (d : gmap TradeKey Z) :
  len ≠ 0 →
  for_each l d
    (λ order amounts,
       q ← py_floordiv (amount order) len;
       Ok (<[key_of order := q]> amounts))
  = Ok (assign_all (λ o, amount o / len) l d).
Proof.
  intros Hlen. revert d. induction l as [|o l IH]; intros d; [done|].
  cbn [for_each]. rewrite py_floordiv_Ok by done. rewrite !bind_Ok.
  apply IH.
Qed.

(** [reset] returns on a well-formed calendar of at least one step and
    parent orders of distinct keys. *)
Lemma reset_Ok (cal : Calendar) (orders : list Order) :
  calendar_wf cal →
  0 < cal_len cal →
  NoDup (key_of <$> orders) →
  reset cal orders = Ok (mkStrategy (cal_dates cal) (cal_len cal) 0 orders ∅ ∅).
Proof.
  intros [Hlen Hinc] HN Hnd. unfold reset, RuleStrategy_reset.
  destruct (Z.ltb_spec 0 (cal_len cal)); [|lia].
  destruct (Z.eqb_spec (Z.of_nat (length (cal_dates cal))) (cal_len cal + 1));
    [|lia].
  rewrite Hinc. cbn [andb]. rewrite bind_Ok. unfold TradingEnhancement_reset.
  by rewrite bool_decide_eq_true_2.
Qed.

(** It returns in no other case, and it raises nothing but the two
    errors of the base classes. *)
Lemma reset_inv (cal : Calendar) (orders : list Order) :
  (calendar_wf cal ∧ 0 < cal_len cal ∧ NoDup (key_of <$> orders) ∧
   reset cal orders = Ok (mkStrategy (cal_dates cal) (cal_len cal) 0 orders ∅ ∅))
  ∨ reset cal orders = Raise InvalidWindow
  ∨ (¬ NoDup (key_of <$> orders) ∧ reset cal orders = Raise DuplicateKey).
Proof.
  unfold reset, RuleStrategy_reset.
  destruct (Z.ltb_spec 0 (cal_len cal)); [|by right; left].
  destruct (Z.eqb_spec (Z.of_nat (length (cal_dates cal))) (cal_len cal + 1));
    [|by right; left].
  destruct (strictly_increasing (cal_dates cal)) eqn:Hinc; [|by right; left].
  cbn [andb]. rewrite bind_Ok. unfold TradingEnhancement_reset.
  destruct (decide (NoDup (key_of <$> orders))) as [Hnd|Hnd].
  - left. rewrite bool_decide_eq_true_2 by done. by split_and!.
  - right; right. by rewrite bool_decide_eq_false_2.
Qed.

Lemma TWAP_init_Ok (cal : Calendar) (orders : list Order) :
  calendar_wf cal →
  0 < cal_len cal →
  NoDup (key_of <$> orders) →
  TWAPStrategy.__init__ cal orders =
    Ok (mkStrategy (cal_dates cal) (cal_len cal) 0 orders
          (assign_all (λ o, amount o / cal_len cal) orders ∅) ∅).
Proof.
  intros Hwf HN Hnd. unfold TWAPStrategy.__init__.
  rewrite reset_Ok, bind_Ok by done. cbn [trade_order_list trade_len].
  by rewrite TWAP_init_loop by lia.
Qed.

Lemma SBB_init_loop (len : Z) (l : list Order) (d : gmap TradeKey Z)
    (t : gmap TradeKey Trend) :
  len ≠ 0 →
  for_each l (d, t)
    (λ order '(amounts, trends),
       q ← py_floordiv (amount order) len;
       Ok (<[key_of order := q]> amounts, <[key_of order := TREND_MID]> trends))
  = Ok (assign_all (λ o, amount o / len) l d, assign_all (λ _, TREND_MID) l t).
Proof.
  intros Hlen. revert d t. induction l as [|o l IH]; intros d t; [done|].
  cbn [for_each]. rewrite py_floordiv_Ok by done. rewrite !bind_Ok.
  apply IH.
Qed.

Lemma SBB_init_Ok (cal : Calendar) (orders : list Order) :
  calendar_wf cal →
  0 < cal_len cal →
  NoDup (key_of <$> orders) →
  SBBStrategy.__init__ cal orders =
    Ok (mkStrategy (cal_dates cal) (cal_len cal) 0 orders
          (assign_all (λ o, amount o / cal_len cal) orders ∅)
          (assign_all (λ _, TREND_MID) orders ∅)).
Proof.
  intros Hwf HN Hnd. unfold SBBStrategy.__init__.
  rewrite reset_Ok, bind_Ok by done.
  cbn [trade_order_list trade_len trade_trend].
  by rewrite SBB_init_loop by lia.
Qed.

(** ** Child orders of a key *)

Lemma for_key_all k (l : list Order) :
  (∀ c, c ∈ l → key_of c = k) → for_key k l = l.
Proof.
  unfold for_key. induction l as [|c l IH]; intros Hall; [done|].
  rewrite filter_cons_True by (apply Hall, list_elem_of_here).
  f_equal. apply IH. intros c' Hc'. by apply Hall, list_elem_of_further.
Qed.

Lemma for_key_none k (l : list Order) :
  (∀ c, c ∈ l → key_of c ≠ k) → for_key k l = [].
Proof.
  unfold for_key. induction l as [|c l IH]; intros Hnone; [done|].
  rewrite filter_cons_False by (apply Hnone, list_elem_of_here).
  apply IH. intros c' Hc'. by apply Hnone, list_elem_of_further.
Qed.

(** When every parent order [o'] contributes the children [g o'], all of
    its own key, and keys are not repeated, the children of the key of [o]
    are exactly [g o]. *)
Lemma for_key_bind (g : Order → list Order) (l : list Order) (o : Order) :
  (∀ o' c, c ∈ g o' → key_of c = key_of o') →
  NoDup (key_of <$> l) → o ∈ l →
  for_key (key_of o) (l ≫= g) = g o.
Proof.
  intros Hg. induction l as [|o' l IH]; intros Hnd Ho.
  - by apply elem_of_nil in Ho.
  - rewrite fmap_cons in Hnd. apply NoDup_cons in Hnd as [Hnot Hnd].
    rewrite bind_cons. unfold for_key. rewrite filter_app.
    fold (for_key (key_of o) (g o')). fold (for_key (key_of o) (l ≫= g)).
    apply elem_of_cons in Ho as [->|Ho].
    + rewrite for_key_all by (intros c Hc; by apply Hg).
      rewrite for_key_none; [by rewrite app_nil_r|].
      intros c Hc Heq. apply list_elem_of_bind in Hc as (o'' & Hc & Ho'').
      apply Hnot. rewrite <- Heq, (Hg o'' c Hc). by apply list_elem_of_fmap_2.
    + rewrite for_key_none; [by apply IH|].
      intros c Hc Heq. apply Hnot. rewrite <- (Hg o' c Hc), Heq.
      by apply list_elem_of_fmap_2.
Qed.

(** ** TWAPStrategy: one call and a run *)

Lemma TWAP_child_inv (self : Strategy) (tst tet : Time) (o c : Order) :
  c ∈ TWAP_child self tst tet o →
  ∃ a, trade_amount self !! key_of o = Some a ∧
       c = mkOrder (stock_id o) a tst tet (direction o) (factor o).
Proof.
  unfold TWAP_child. destruct (trade_amount self !! key_of o) as [a|].
  - intros ->%list_elem_of_singleton. eauto.
  - by intros ?%elem_of_nil.
Qed.

Lemma TWAP_loop (self : Strategy) (tst tet : Time) (l acc : list Order) :
  (∀ o, o ∈ l → is_Some (trade_amount self !! key_of o)) →
  for_each l acc
    (λ order order_list,
       a ← dict_getitem (trade_amount self) (key_of order);
       Ok (order_list ++
             [mkOrder (stock_id order) a tst tet (direction order) (factor order)]))
  = Ok (acc ++ (l ≫= TWAP_child self tst tet)).
Proof.
  revert acc. induction l as [|o l IH]; intros acc Hreg.
  - simpl. by rewrite app_nil_r.
  - destruct (Hreg o) as [a Ha]; [apply list_elem_of_here|].
    cbn [for_each]. cbn beta. rewrite (dict_getitem_Some _ _ _ Ha), !bind_Ok.
    rewrite IH by (intros o' Ho'; by apply Hreg, list_elem_of_further).
    rewrite bind_cons. unfold TWAP_child at 2. rewrite Ha.
    by rewrite <- app_assoc.
Qed.

Lemma TWAP_generate_Ok (self : Strategy) :
  registered self →
  0 ≤ trade_index self →
  trade_index self + 1 < Z.of_nat (length (trade_dates self)) →
  ∃ tst tet,
    py_getitem (trade_dates self) (trade_index self) = Ok tst ∧
    py_getitem (trade_dates self) (trade_index self + 1) = Ok tet ∧
    TWAPStrategy.generate_order_list self =
      Ok (trade_order_list self ≫= TWAP_child self tst tet,
          base_generate_order_list self).
Proof.
  intros Hreg H0 Hlt. unfold TWAPStrategy.generate_order_list.
  cbn [base_generate_order_list set_trade_index trade_dates trade_index
       trade_order_list trade_amount].
  replace (trade_index self + 1 - 1) with (trade_index self) by lia.
  destruct (py_getitem_in_range (trade_dates self) (trade_index self))
    as (tst & -> & _); [lia|].
  destruct (py_getitem_in_range (trade_dates self) (trade_index self + 1))
    as (tet & -> & _); [lia|].
  exists tst, tet. rewrite !bind_Ok.
  rewrite (TWAP_loop self tst tet) by done.
  by rewrite bind_Ok.
Qed.

Lemma TWAP_run_Ok (n : nat) :
  ∀ self,
    registered self →
    0 ≤ trade_index self →
    trade_index self + Z.of_nat n < Z.of_nat (length (trade_dates self)) →
    ∃ outs self',
      TWAPStrategy.run n self = Ok (outs, self') ∧
      length outs = n ∧
      ∀ out, out ∈ outs →
        ∃ tst tet, out = trade_order_list self ≫= TWAP_child self tst tet.
Proof.
  induction n as [|n IH]; intros self Hreg H0 Hlt.
  - exists [], self. split_and!; [done..|]. intros out Hout. by apply elem_of_nil in Hout.
  - destruct (TWAP_generate_Ok self) as (tst & tet & _ & _ & Hgen); [done|done|lia|].
    destruct (IH (base_generate_order_list self)) as (outs & self' & Hrun & Hlen & Houts).
    + done.
    + simpl. lia.
    + simpl. lia.
    + eexists (_ :: outs), self'. cbn [TWAPStrategy.run].
      rewrite Hgen, bind_Ok. cbn beta iota. rewrite Hrun, bind_Ok.
      split_and!; [done|simpl; by rewrite Hlen|].
      intros out Hout. apply elem_of_cons in Hout as [->|Hout]; [eauto|].
      by apply Houts.
Qed.

Lemma total_for_const (k : TradeKey) (a : Z) (outs : list (list Order)) :
  (∀ out, out ∈ outs → ∃ c, for_key k out = [c] ∧ amount c = a) →
  total_for k outs = Z.of_nat (length outs) * a.
Proof.
  unfold total_for. induction outs as [|out outs IH]; intros Hall; [done|].
  destruct (Hall out) as (c & Hc & Ha); [apply list_elem_of_here|].
  rewrite fmap_cons. cbn [Zsum foldr]. fold (Zsum ((λ out, Zsum (amount <$> for_key k out)) <$> outs)).
  rewrite IH by (intros out' Hout'; by apply Hall, list_elem_of_further).
  rewrite Hc. cbn [fmap list_fmap Zsum foldr length]. lia.
Qed.

(** ** C1 *)

(** C1. TWAP conservation.  For a parent order [o] of amount [A] among
    parent orders of distinct keys, worked over the [N > 0] steps of a
    calendar, registration stores [base_amount = A // N] under the key of
    [o]; each of the [N] calls of [generate_order_list] returns, and
    contains exactly one child order of that key, of amount
    [base_amount]; so the [N] emitted amounts sum to [N * (A // N)], which
    is at most [A] and short of it by less than [N]: the remainder is not
    handed out. *)
Theorem TWAP_conservation (cal : Calendar) (orders : list Order) (o : Order) :
  calendar_wf cal →
  0 < cal_len cal →
  NoDup (key_of <$> orders) →
  o ∈ orders →
  let N := cal_len cal in
  let base_amount := amount o / N in
  ∃ self outs self',
    TWAPStrategy.__init__ cal orders = Ok self ∧
    trade_amount self !! key_of o = Some base_amount ∧
    TWAPStrategy.run (Z.to_nat N) self = Ok (outs, self') ∧
    length outs = Z.to_nat N ∧
    (∀ out, out ∈ outs →
       ∃ c, for_key (key_of o) out = [c] ∧ amount c = base_amount) ∧
    total_for (key_of o) outs = N * base_amount ∧
    N * base_amount ≤ amount o ∧
    amount o - N * base_amount < N.
Proof.
  intros Hwf HN Hnd Ho N base_amount. pose proof (proj1 Hwf) as Hdates.
  set (self := mkStrategy (cal_dates cal) (cal_len cal) 0 orders
                 (assign_all (λ o, amount o / cal_len cal) orders ∅) ∅).
  assert (Hbase : trade_amount self !! key_of o = Some base_amount)
    by (by apply (assign_all_NoDup (λ o, amount o / cal_len cal))).
  assert (Hreg : registered self)
    by (intros o' Ho'; by apply (assign_all_is_Some (λ o, amount o / cal_len cal))).
  destruct (TWAP_run_Ok (Z.to_nat N) self) as (outs & self' & Hrun & Hlen & Houts);
    [done|simpl; lia|simpl; fold N; lia|].
  assert (Hone : ∀ out, out ∈ outs →
            ∃ c, for_key (key_of o) out = [c] ∧ amount c = base_amount).
  { intros out Hout. destruct (Houts out Hout) as (tst & tet & ->).
    cbn [trade_order_list self].
    rewrite (for_key_bind (TWAP_child self tst tet)); [| |done..].
    - unfold TWAP_child. rewrite Hbase. eauto.
    - intros o' c Hc. by apply TWAP_child_inv in Hc as (a & _ & ->). }
  exists self, outs, self'. split_and!; try done.
  - by apply TWAP_init_Ok.
  - rewrite (total_for_const _ base_amount) by done. rewrite Hlen. lia.
  - unfold base_amount. pose proof (Z.mul_div_le (amount o) N HN). lia.
  - unfold base_amount. pose proof (Z.mod_pos_bound (amount o) N HN).
    rewrite (Z.mod_eq (amount o) N) in H by lia. lia.
Qed.

(** ** C6 *)

Lemma duplicate_keys_not_NoDup (l1 l2 l3 : list Order) (o1 o2 : Order) :
  key_of o1 = key_of o2 →
  ¬ NoDup (key_of <$> l1 ++ o1 :: l2 ++ o2 :: l3).
Proof.
  intros Hkey Hnd. rewrite fmap_app, fmap_cons in Hnd.
  apply NoDup_app in Hnd as (_ & _ & Hnd).
  apply NoDup_cons in Hnd as [Hnot _]. apply Hnot.
  rewrite Hkey, fmap_app, fmap_cons. apply elem_of_app. right.
  apply list_elem_of_here.
Qed.

(** C6. Duplicate keys.  When the list of parent orders holds two parent
    orders with the same stock and direction, [__init__] of either
    strategy returns no strategy: [reset] raises and nothing is
    registered.  On a well-formed calendar of at least one step the error
    is [DuplicateKey]. *)
Theorem init_duplicate_key_fails (cal : Calendar)
    (l1 l2 l3 : list Order) (o1 o2 : Order) :
  key_of o1 = key_of o2 →
  let orders := l1 ++ o1 :: l2 ++ o2 :: l3 in
  (∀ self, TWAPStrategy.__init__ cal orders ≠ Ok self) ∧
  (∀ self, SBBStrategy.__init__ cal orders ≠ Ok self) ∧
  (calendar_wf cal → 0 < cal_len cal →
     TWAPStrategy.__init__ cal orders = Raise DuplicateKey ∧
     SBBStrategy.__init__ cal orders = Raise DuplicateKey).
Proof.
  intros Hkey orders.
  pose proof (duplicate_keys_not_NoDup l1 l2 l3 o1 o2 Hkey) as Hdup.
  fold orders in Hdup.
  unfold TWAPStrategy.__init__, SBBStrategy.__init__.
  destruct (reset_inv cal orders)
    as [(_ & _ & Hnd & _) | [Hreset | [_ Hreset]]]; [done| |];
    rewrite Hreset.
  - split_and!; [done..|]. intros Hwf HN.
    assert (Hok : NoDup (key_of <$> orders) → False) by done.
    unfold reset, RuleStrategy_reset in Hreset.
    destruct Hwf as [Hlen Hinc].
    destruct (Z.ltb_spec 0 (cal_len cal)); [|lia].
    destruct (Z.eqb_spec (Z.of_nat (length (cal_dates cal))) (cal_len cal + 1));
      [|lia].
    rewrite Hinc in Hreset. cbn [andb] in Hreset. rewrite bind_Ok in Hreset.
    unfold TradingEnhancement_reset in Hreset.
    by rewrite bool_decide_eq_false_2 in Hreset.
  - by split_and!.
Qed.

(** ** C7 *)

(** C7. Past the last step.  With [N + 1] boundaries in the calendar and
    the cursor already at step [N] or later, [generate_order_list] of TWAP
    raises on looking up the bounds of the step (the [IndexError] of
    Python, which is the out-of-range failure) and returns no child
    orders. *)
Theorem TWAP_step_out_of_range (self : Strategy) :
  Z.of_nat (length (trade_dates self)) = trade_len self + 1 →
  trade_len self ≤ trade_index self →
  TWAPStrategy.generate_order_list self = Raise IndexError.
Proof.
  intros Hwf Hidx. unfold TWAPStrategy.generate_order_list.
  cbn [base_generate_order_list set_trade_index trade_dates trade_index].
  destruct (py_getitem_cases (trade_dates self) (trade_index self + 1 - 1))
    as [[tst ->] | ->]; [|done].
  rewrite bind_Ok, py_getitem_beyond by lia. done.
Qed.

(** The same for a step of SBB driven from the calendar: the bounds of a
    step past the last one cannot be looked up. *)
Lemma SBB_step_out_of_range (pred : PredictorHook) (self : Strategy) :
  Z.of_nat (length (trade_dates self)) = trade_len self + 1 →
  trade_len self ≤ trade_index self →
  SBBStrategy.step pred self = Raise IndexError.
Proof.
  intros Hwf Hidx. unfold SBBStrategy.step.
  destruct (py_getitem_cases (trade_dates self) (trade_index self))
    as [[tst ->] | ->]; [|done].
  rewrite bind_Ok, py_getitem_beyond by lia. done.
Qed.

(** ** SBBStrategy: one iteration, one call *)

Lemma SBB_emit_inv (odd : bool) (t : Trend) (tst tet : Time) (o : Order)
    (a : Z) (c : Order) :
  c ∈ SBB_emit odd t tst tet o a →
  c = SBBStrategy.child o (if decide (t = TREND_MID) then a else 2 * a) tst tet.
Proof.
  unfold SBB_emit.
  destruct t, odd, (direction o); simpl;
    first [by intros ?%elem_of_nil | by intros ->%list_elem_of_singleton].
Qed.

Lemma SBB_loop_body_odd (pred : PredictorHook) (self : Strategy)
    (tst tet : Time) (o : Order) (ol : list Order)
    (tr : gmap TradeKey Trend) (calls : list PredCall) (t : Trend) (a : Z) :
  trade_index self `mod` 2 = 1 →
  pred (stock_id o) None None = Ok t →
  trade_amount self !! key_of o = Some a →
  SBBStrategy.loop_body pred self tst tet o (ol, tr, calls) =
    Ok (ol ++ SBB_emit true t tst tet o a,
        <[key_of o := t]> tr,
        calls ++ [(stock_id o, None, None)]).
Proof.
  intros Hodd Hpred Ha. unfold SBBStrategy.loop_body.
  rewrite Hodd, Hpred, (dict_getitem_Some _ _ _ Ha). cbn [Z.eqb Pos.eqb].
  rewrite !bind_Ok. unfold SBB_emit.
  destruct t, (direction o) eqn:Hd; simpl; by rewrite ?app_nil_r.
Qed.

Lemma SBB_loop_body_even (pred : PredictorHook) (self : Strategy)
    (tst tet : Time) (o : Order) (ol : list Order)
    (tr : gmap TradeKey Trend) (calls : list PredCall) (t : Trend) (a : Z) :
  trade_index self `mod` 2 ≠ 1 →
  tr !! key_of o = Some t →
  trade_amount self !! key_of o = Some a →
  SBBStrategy.loop_body pred self tst tet o (ol, tr, calls) =
    Ok (ol ++ SBB_emit false t tst tet o a, tr, calls).
Proof.
  intros Heven Htr Ha. unfold SBBStrategy.loop_body.
  destruct (Z.eqb_spec (trade_index self `mod` 2) 1) as [|_]; [done|].
  rewrite (dict_getitem_Some _ _ _ Htr), (dict_getitem_Some _ _ _ Ha).
  rewrite !bind_Ok. unfold SBB_emit.
  destruct t, (direction o) eqn:Hd; simpl; by rewrite ?app_nil_r.
Qed.

Lemma SBB_loop_odd (pred : PredictorHook) (p : string → Trend)
    (self : Strategy) (tst tet : Time) (l : list Order) :
  trade_index self `mod` 2 = 1 →
  answers pred p l →
  (∀ o, o ∈ l → is_Some (trade_amount self !! key_of o)) →
  ∀ ol (tr : gmap TradeKey Trend) (calls : list PredCall),
    for_each l (ol, tr, calls) (SBBStrategy.loop_body pred self tst tet) =
      Ok (ol ++ (l ≫= SBB_children true self (λ o, Some (p (stock_id o))) tst tet),
          assign_all (λ o, p (stock_id o)) l tr,
          calls ++ ((λ o, (stock_id o, None, None)) <$> l)).
Proof.
  intros Hodd. induction l as [|o l IH]; intros Hp Hreg ol tr calls.
  - simpl. by rewrite !app_nil_r.
  - destruct (Hreg o) as [a Ha]; [apply list_elem_of_here|].
    cbn [for_each].
    rewrite (SBB_loop_body_odd pred self tst tet o ol tr calls (p (stock_id o)) a);
      [|done|apply Hp, list_elem_of_here|done].
    rewrite bind_Ok, IH.
    + rewrite bind_cons, fmap_cons. unfold SBB_children at 2. rewrite Ha.
      by rewrite <- !app_assoc.
    + intros o' Ho'. by apply Hp, list_elem_of_further.
    + intros o' Ho'. by apply Hreg, list_elem_of_further.
Qed.

Lemma SBB_loop_even (pred : PredictorHook) (self : Strategy) (tst tet : Time)
    (l : list Order) (tr : gmap TradeKey Trend) :
  trade_index self `mod` 2 ≠ 1 →
  (∀ o, o ∈ l → is_Some (tr !! key_of o)) →
  (∀ o, o ∈ l → is_Some (trade_amount self !! key_of o)) →
  ∀ ol (calls : list PredCall),
    for_each l (ol, tr, calls) (SBBStrategy.loop_body pred self tst tet) =
      Ok (ol ++ (l ≫= SBB_children false self (λ o, tr !! key_of o) tst tet),
          tr, calls).
Proof.
  intros Heven. induction l as [|o l IH]; intros Htr Hreg ol calls.
  - simpl. by rewrite !app_nil_r.
  - destruct (Hreg o) as [a Ha]; [apply list_elem_of_here|].
    destruct (Htr o) as [t Ht]; [apply list_elem_of_here|].
    cbn [for_each].
    rewrite (SBB_loop_body_even pred self tst tet o ol tr calls t a) by done.
    rewrite bind_Ok, IH.
    + rewrite bind_cons. unfold SBB_children at 2. rewrite Ha, Ht.
      by rewrite <- !app_assoc.
    + intros o' Ho'. by apply Htr, list_elem_of_further.
    + intros o' Ho'. by apply Hreg, list_elem_of_further.
Qed.

Lemma SBB_pred_window_Ok (self : Strategy) (tst : Time) :
  0 ≤ trade_index self ≤ Z.of_nat (length (trade_dates self)) →
  ∃ w, SBBStrategy.pred_window (base_generate_order_list self) tst = Ok w.
Proof.
  intros Hidx. unfold SBBStrategy.pred_window.
  cbn [base_generate_order_list set_trade_index trade_dates trade_index].
  destruct (Z.eqb_spec (trade_index self + 1) 1); [eauto|].
  destruct (py_getitem_in_range (trade_dates self) (trade_index self + 1 - 2))
    as (d & -> & _); [lia|].
  rewrite bind_Ok. eauto.
Qed.

(** An odd step: every parent order is worked with what the hook answers
    for its stock, and the answer is stored under its key. *)
Lemma SBB_generate_odd (pred : PredictorHook) (p : string → Trend)
    (self : Strategy) (tst tet : Time) :
  (trade_index self + 1) `mod` 2 = 1 →
  0 ≤ trade_index self ≤ Z.of_nat (length (trade_dates self)) →
  registered self →
  answers pred p (trade_order_list self) →
  SBBStrategy.generate_order_list pred self tst tet =
    Ok (trade_order_list self
          ≫= SBB_children true self (λ o, Some (p (stock_id o))) tst tet,
        set_trade_trend (base_generate_order_list self)
          (assign_all (λ o, p (stock_id o)) (trade_order_list self)
             (trade_trend self)),
        (λ o, (stock_id o, None, None)) <$> trade_order_list self).
Proof.
  intros Hodd Hidx Hreg Hp. unfold SBBStrategy.generate_order_list.
  destruct (SBB_pred_window_Ok self tst Hidx) as ([ps pe] & ->).
  rewrite bind_Ok. cbn beta iota.
  rewrite (SBB_loop_odd pred p); [by rewrite bind_Ok|done..].
Qed.

(** An even step: every parent order is worked with the trend stored
    under its key; nothing is stored and the hook is not called. *)
Lemma SBB_generate_even (pred : PredictorHook) (self : Strategy)
    (tst tet : Time) :
  (trade_index self + 1) `mod` 2 ≠ 1 →
  0 ≤ trade_index self ≤ Z.of_nat (length (trade_dates self)) →
  registered self →
  trend_registered self →
  SBBStrategy.generate_order_list pred self tst tet =
    Ok (trade_order_list self
          ≫= SBB_children false self (λ o, trade_trend self !! key_of o) tst tet,
        set_trade_trend (base_generate_order_list self) (trade_trend self),
        []).
Proof.
  intros Heven Hidx Hreg Htr. unfold SBBStrategy.generate_order_list.
  destruct (SBB_pred_window_Ok self tst Hidx) as ([ps pe] & ->).
  rewrite bind_Ok. cbn beta iota.
  rewrite (SBB_loop_even pred); [by rewrite bind_Ok|done..].
Qed.

(** Whatever the state, an iteration that returns has worked with one
    trend [t] (the answer of the hook on an odd step, the stored trend on
    an even step), has appended nothing or one child order, and has
    stored [t] and recorded the call on an odd step only. *)
Lemma SBB_loop_body_inv (pred : PredictorHook) (self : Strategy)
    (tst tet : Time) (o : Order) (ol ol' : list Order)
    (tr tr' : gmap TradeKey Trend) (calls calls' : list PredCall) :
  SBBStrategy.loop_body pred self tst tet o (ol, tr, calls) = Ok (ol', tr', calls') →
  ∃ t,
    (if trade_index self `mod` 2 =? 1
     then pred (stock_id o) None None = Ok t ∧
          tr' = <[key_of o := t]> tr ∧
          calls' = calls ++ [(stock_id o, None, None)]
     else tr !! key_of o = Some t ∧ tr' = tr ∧ calls' = calls) ∧
    (ol' = ol ∨
     ∃ a, trade_amount self !! key_of o = Some a ∧
          ol' = ol ++ [SBBStrategy.child o
                         (if decide (t = TREND_MID) then a else 2 * a) tst tet]).
Proof.
  unfold SBBStrategy.loop_body, dict_getitem.
  destruct (trade_index self `mod` 2 =? 1).
  - destruct (pred (stock_id o) None None) as [t|]; [|discriminate].
    rewrite !bind_Ok. cbn beta iota. intros Hbody. exists t.
    destruct (decide (t = TREND_MID)); [|destruct (bool_decide _)];
      (destruct (trade_amount self !! key_of o) as [a|];
       [|try discriminate]); simpl in Hbody; simplify_eq; eauto 10.
  - destruct (tr !! key_of o) as [t|]; [|discriminate].
    rewrite !bind_Ok. cbn beta iota. intros Hbody. exists t.
    destruct (decide (t = TREND_MID)); [|destruct (bool_decide _)];
      (destruct (trade_amount self !! key_of o) as [a|];
       [|try discriminate]); simpl in Hbody; simplify_eq; eauto 10.
Qed.

Lemma bind_ext_in {A B : Type} (f g : A → list B) (l : list A) :
  (∀ x, x ∈ l → f x = g x) → l ≫= f = l ≫= g.
Proof.
  induction l as [|x l IH]; intros Hfg; [done|].
  rewrite !bind_cons, (Hfg x), IH; [done| |apply list_elem_of_here].
  intros y Hy. by apply Hfg, list_elem_of_further.
Qed.

Lemma SBB_children_key (odd : bool) (self : Strategy)
    (trend_of : Order → option Trend) (tst tet : Time) (o c : Order) :
  c ∈ SBB_children odd self trend_of tst tet o → key_of c = key_of o.
Proof.
  unfold SBB_children.
  destruct (trend_of o) as [t|]; [|by intros ?%elem_of_nil].
  destruct (trade_amount self !! key_of o) as [a|]; [|by intros ?%elem_of_nil].
  by intros ->%SBB_emit_inv.
Qed.

Lemma odd_then_even (i : Z) : (i + 1) `mod` 2 = 1 → (i + 1 + 1) `mod` 2 ≠ 1.
Proof. intros Hodd. Z.div_mod_to_equations. lia. Qed.

(** ** C2 *)

(** C2. The decision table of SBB.  Take an odd step and the even step
    that follows it, a parent order [o] whose key no other parent order
    has, its base amount [a], and the trend [t] the hook answers for its
    stock on the odd step, which is the trend stored for the even step.
    If [t] is MID, each of the two steps emits one child order of amount
    [a] for the key.  If [t] is LONG, a BUY key gets [2 * a] on the odd
    step and nothing on the even step, a SELL key nothing on the odd step
    and [2 * a] on the even step.  If [t] is SHORT, a SELL key gets
    [2 * a] on the odd step and nothing on the even step, a BUY key
    nothing on the odd step and [2 * a] on the even step. *)
Theorem SBB_decision_table (pred : PredictorHook) (p : string → Trend)
    (self : Strategy) (tst1 tet1 tst2 tet2 : Time) (o : Order) (a : Z) :
  (trade_index self + 1) `mod` 2 = 1 →
  0 ≤ trade_index self < Z.of_nat (length (trade_dates self)) →
  registered self →
  NoDup (key_of <$> trade_order_list self) →
  answers pred p (trade_order_list self) →
  o ∈ trade_order_list self →
  trade_amount self !! key_of o = Some a →
  ∃ out1 self1 calls1 out2 self2 calls2,
    SBBStrategy.generate_order_list pred self tst1 tet1 = Ok (out1, self1, calls1) ∧
    SBBStrategy.generate_order_list pred self1 tst2 tet2 = Ok (out2, self2, calls2) ∧
    trade_trend self1 !! key_of o = Some (p (stock_id o)) ∧
    let t := p (stock_id o) in
    let k := key_of o in
    (t = TREND_MID →
       for_key k out1 = [SBBStrategy.child o a tst1 tet1] ∧
       for_key k out2 = [SBBStrategy.child o a tst2 tet2]) ∧
    (t = TREND_LONG → direction o = BUY →
       for_key k out1 = [SBBStrategy.child o (2 * a) tst1 tet1] ∧
       for_key k out2 = []) ∧
    (t = TREND_LONG → direction o = SELL →
       for_key k out1 = [] ∧
       for_key k out2 = [SBBStrategy.child o (2 * a) tst2 tet2]) ∧
    (t = TREND_SHORT → direction o = SELL →
       for_key k out1 = [SBBStrategy.child o (2 * a) tst1 tet1] ∧
       for_key k out2 = []) ∧
    (t = TREND_SHORT → direction o = BUY →
       for_key k out1 = [] ∧
       for_key k out2 = [SBBStrategy.child o (2 * a) tst2 tet2]).
Proof.
  intros Hodd Hidx Hreg Hnd Hp Ho Ha.
  set (self1 := set_trade_trend (base_generate_order_list self)
                  (assign_all (λ o, p (stock_id o)) (trade_order_list self)
                     (trade_trend self))).
  assert (Hstored : trade_trend self1 !! key_of o = Some (p (stock_id o)))
    by (by apply (assign_all_NoDup (λ o, p (stock_id o)))).
  eexists _, self1, _, _, _, _. split_and!.
  - apply (SBB_generate_odd pred p); [done|lia|done..].
  - apply (SBB_generate_even pred self1).
    + simpl. by apply odd_then_even.
    + simpl. lia.
    + done.
    + intros o' Ho'. by apply (assign_all_is_Some (λ o, p (stock_id o))).
  - done.
  - cbn [trade_order_list self1 set_trade_trend base_generate_order_list
         set_trade_index].
    do 2 (rewrite for_key_bind;
          [|intros o' c Hc; by apply SBB_children_key in Hc|done..]).
    unfold SBB_children. rewrite Hstored.
    cbn [trade_amount self1 set_trade_trend base_generate_order_list
         set_trade_index]. rewrite Ha.
    unfold SBB_emit. cbv zeta.
    split_and!; intros; repeat match goal with H : _ = _ |- _ => rewrite H end;
      done.
Qed.

(** ** C5 *)

(** On an even step the loop leaves [trade_trend] and the record of calls
    as they were. *)
Lemma SBB_loop_even_untouched (pred : PredictorHook) (self : Strategy)
    (tst tet : Time) (l : list Order) (ol ol' : list Order)
    (tr tr' : gmap TradeKey Trend) (calls calls' : list PredCall) :
  trade_index self `mod` 2 ≠ 1 →
  for_each l (ol, tr, calls) (SBBStrategy.loop_body pred self tst tet)
    = Ok (ol', tr', calls') →
  tr' = tr ∧ calls' = calls.
Proof.
  intros Heven Hloop.
  apply (for_each_inv (λ s, s.1.2 = tr ∧ s.2 = calls)) in Hloop; [done|done|].
  intros o [[ol1 tr1] calls1] [[ol2 tr2] calls2] _ [Htr Hcalls] Hbody.
  simpl in Htr, Hcalls. subst tr1 calls1.
  apply SBB_loop_body_inv in Hbody as (t & Hstate & _).
  destruct (Z.eqb_spec (trade_index self `mod` 2) 1); [done|].
  by destruct Hstate as (_ & -> & ->).
Qed.

(** C5. Trend persistence.  (1) A call of [generate_order_list] for an
    even step that returns has left [trade_trend] as it was and has not
    called the hook.  (2) An odd step stores, for every parent order, the
    trend [t] the hook answers for its stock; the even step that follows
    returns, and what it emits is what the loop emits when it works, for
    every parent order, with the trend that is stored under its key at
    that moment, which is still [t] afterwards. *)
Theorem SBB_trend_persistence :
  (∀ (pred : PredictorHook) (self : Strategy) (tst tet : Time)
     (out : list Order) (self' : Strategy) (calls : list PredCall),
     (trade_index self + 1) `mod` 2 ≠ 1 →
     SBBStrategy.generate_order_list pred self tst tet = Ok (out, self', calls) →
     trade_trend self' = trade_trend self ∧ calls = []) ∧
  (∀ (pred : PredictorHook) (p : string → Trend) (self : Strategy)
     (tst1 tet1 tst2 tet2 : Time),
     (trade_index self + 1) `mod` 2 = 1 →
     0 ≤ trade_index self < Z.of_nat (length (trade_dates self)) →
     registered self →
     answers pred p (trade_order_list self) →
     ∃ out1 self1 calls1 out2 self2 calls2,
       SBBStrategy.generate_order_list pred self tst1 tet1 = Ok (out1, self1, calls1) ∧
       SBBStrategy.generate_order_list pred self1 tst2 tet2 = Ok (out2, self2, calls2) ∧
       (∀ o, o ∈ trade_order_list self →
          trade_trend self1 !! key_of o = Some (p (stock_id o))) ∧
       out2 = trade_order_list self
                ≫= SBB_children false self
                     (λ o, trade_trend self1 !! key_of o) tst2 tet2 ∧
       trade_trend self2 = trade_trend self1 ∧
       calls2 = []).
Proof.
  split.
  - intros pred self tst tet out self' calls Heven.
    unfold SBBStrategy.generate_order_list.
    intros Hgen. apply bind_inv in Hgen as ([ps pe] & _ & Hgen).
    apply bind_inv in Hgen as ([[ol tr] calls'] & Hloop & Hgen).
    apply SBB_loop_even_untouched in Hloop as [-> ->]; [|done].
    by simplify_eq.
  - intros pred p self tst1 tet1 tst2 tet2 Hodd Hidx Hreg Hp.
    set (self1 := set_trade_trend (base_generate_order_list self)
                    (assign_all (λ o, p (stock_id o)) (trade_order_list self)
                       (trade_trend self))).
    assert (Hstored : ∀ o, o ∈ trade_order_list self →
              trade_trend self1 !! key_of o = Some (p (stock_id o))).
    { intros o Ho.
      by apply (assign_all_uniform (λ o, p (stock_id o)) (λ k, p k.1)). }
    eexists _, self1, _, _, _, _. split_and!.
    + apply (SBB_generate_odd pred p); [done|lia|done..].
    + apply (SBB_generate_even pred self1).
      * simpl. by apply odd_then_even.
      * simpl. lia.
      * done.
      * intros o Ho. rewrite Hstored by done. eauto.
    + done.
    + done.
    + done.
    + done.
Qed.

(** ** C10 *)

(** C10. Every child order that [generate_order_list] returns, of TWAP or
    of SBB, has the stock, the direction and the factor of a parent order
    [o] of the list.  Its amount is the base amount [a] stored under the
    key of [o] for TWAP; for SBB it is [a] when the trend worked with
    (the answer of the hook on an odd step, the stored trend on an even
    step) is MID, and [2 * a] when that trend is not MID. *)
Theorem child_orders_copy_parent :
  (∀ (self : Strategy) (out : list Order) (self' : Strategy),
     TWAPStrategy.generate_order_list self = Ok (out, self') →
     ∀ c, c ∈ out →
       ∃ o, o ∈ trade_order_list self ∧
            stock_id c = stock_id o ∧
            direction c = direction o ∧
            factor c = factor o ∧
            trade_amount self !! key_of o = Some (amount c)) ∧
  (∀ (pred : PredictorHook) (self : Strategy) (tst tet : Time)
     (out : list Order) (self' : Strategy) (calls : list PredCall),
     SBBStrategy.generate_order_list pred self tst tet = Ok (out, self', calls) →
     ∀ c, c ∈ out →
       ∃ o a t,
         o ∈ trade_order_list self ∧
         stock_id c = stock_id o ∧
         direction c = direction o ∧
         factor c = factor o ∧
         trade_amount self !! key_of o = Some a ∧
         (if (trade_index self + 1) `mod` 2 =? 1
          then pred (stock_id o) None None = Ok t
          else trade_trend self !! key_of o = Some t) ∧
         amount c = if decide (t = TREND_MID) then a else 2 * a).
Proof.
  split.
  - intros self out self'. unfold TWAPStrategy.generate_order_list.
    intros Hgen. apply bind_inv in Hgen as (tst & _ & Hgen).
    apply bind_inv in Hgen as (tet & _ & Hgen).
    apply bind_inv in Hgen as (ol & Hloop & Hgen). simplify_eq.
    cbn [base_generate_order_list set_trade_index trade_order_list
         trade_amount] in Hloop.
    pose (I := λ ol : list Order,
            ∀ c, c ∈ ol →
              ∃ o, o ∈ trade_order_list self ∧
                   stock_id c = stock_id o ∧
                   direction c = direction o ∧
                   factor c = factor o ∧
                   trade_amount self !! key_of o = Some (amount c)).
    apply (for_each_inv I) in Hloop; [apply Hloop| |].
    + intros c Hc. by apply elem_of_nil in Hc.
    + intros o ol1 ol2 Ho IH Hbody c Hc.
      apply bind_inv in Hbody as (a & Ha & Hbody). simplify_eq.
      apply elem_of_app in Hc as [Hc|Hc]; [by apply IH|].
      apply list_elem_of_singleton in Hc as ->.
      exists o. split_and!; try done. simpl.
      unfold dict_getitem in Ha. destruct (_ !! _); by simplify_eq.
  - intros pred self tst tet out self' calls.
    unfold SBBStrategy.generate_order_list.
    intros Hgen. apply bind_inv in Hgen as ([ps pe] & _ & Hgen).
    apply bind_inv in Hgen as ([[ol tr] calls'] & Hloop & Hgen). simplify_eq.
    set (self1 := base_generate_order_list self) in *.
    change (trade_index self + 1) with (trade_index self1).
    change (trade_order_list self) with (trade_order_list self1).
    change (trade_amount self) with (trade_amount self1).
    change (trade_trend self) with (trade_trend self1).
    pose (I := λ s : list Order * gmap TradeKey Trend * list PredCall,
            (trade_index self1 `mod` 2 ≠ 1 → s.1.2 = trade_trend self1) ∧
            ∀ c, c ∈ s.1.1 →
              ∃ o a t,
                o ∈ trade_order_list self1 ∧
                stock_id c = stock_id o ∧
                direction c = direction o ∧
                factor c = factor o ∧
                trade_amount self1 !! key_of o = Some a ∧
                (if trade_index self1 `mod` 2 =? 1
                 then pred (stock_id o) None None = Ok t
                 else trade_trend self1 !! key_of o = Some t) ∧
                amount c = if decide (t = TREND_MID) then a else 2 * a).
    apply (for_each_inv I) in Hloop; [apply Hloop| |].
    + split; [done|]. intros c Hc. by apply elem_of_nil in Hc.
    + intros o [[ol1 tr1] calls1] [[ol2 tr2] calls2] Ho [Htr IH] Hbody.
      simpl in Htr, IH.
      apply SBB_loop_body_inv in Hbody as (t & Hstate & Hol).
      split; simpl.
      * intros Heven.
        destruct (Z.eqb_spec (trade_index self1 `mod` 2) 1); [done|].
        destruct Hstate as (_ & -> & _). by apply Htr.
      * intros c Hc.
        destruct Hol as [->|(a & Ha & ->)]; [by apply IH|].
        apply elem_of_app in Hc as [Hc|Hc]; [by apply IH|].
        apply list_elem_of_singleton in Hc as ->.
        exists o, a, t. split_and!; try done.
        change (trade_index self1) with (trade_index self + 1) in *.
        destruct (Z.eqb_spec ((trade_index self + 1) `mod` 2) 1).
        -- by destruct Hstate as (? & _).
        -- destruct Hstate as (Ht & _). by rewrite <- Htr.
Qed.

(** ** C4 *)

Lemma SBB_MID_step (pred : PredictorHook) (self_t self_s : Strategy) :
  (∀ s ps pe, pred s ps pe = Ok TREND_MID) →
  MID_related self_t self_s →
  registered self_t →
  0 ≤ trade_index self_t →
  trade_index self_t + 1 < Z.of_nat (length (trade_dates self_t)) →
  ∃ out self_s' calls,
    TWAPStrategy.generate_order_list self_t =
      Ok (out, base_generate_order_list self_t) ∧
    SBBStrategy.step pred self_s = Ok (out, self_s', calls) ∧
    MID_related (base_generate_order_list self_t) self_s'.
Proof.
  intros Hpred (Hdates & Hindex & Horders & Hamounts & Htrends) Hreg H0 Hlt.
  destruct (TWAP_generate_Ok self_t) as (tst & tet & Htst & Htet & Hgen);
    [done..|].
  assert (Hreg_s : registered self_s).
  { intros o Ho. rewrite Hamounts. apply Hreg. by rewrite <- Horders. }
  assert (Hsame : ∀ odd trend_of,
            (∀ o, o ∈ trade_order_list self_t → trend_of o = Some TREND_MID) →
            trade_order_list self_s
              ≫= SBB_children odd self_s trend_of tst tet
            = trade_order_list self_t ≫= TWAP_child self_t tst tet).
  { intros odd trend_of Hmid. rewrite Horders. apply bind_ext_in.
    intros o Ho. unfold SBB_children, TWAP_child.
    rewrite (Hmid o Ho), Hamounts. by destruct (_ !! _). }
  unfold SBBStrategy.step. rewrite Hdates, Hindex, Htst, Htet, !bind_Ok.
  destruct (decide ((trade_index self_s + 1) `mod` 2 = 1)) as [Hodd|Heven].
  - eexists _, _, _. split_and!; [exact Hgen| |].
    + rewrite (SBB_generate_odd pred (λ _, TREND_MID));
        [|done|rewrite Hdates, Hindex; lia|done|by intros o _].
      by rewrite Hsame.
    + split_and!; simpl; try done; [by rewrite Hindex|].
      intros o Ho. rewrite Horders.
      by apply (assign_all_uniform (λ _, TREND_MID) (λ _, TREND_MID)).
  - eexists _, _, _. split_and!; [exact Hgen| |].
    + rewrite (SBB_generate_even pred);
        [|done|rewrite Hdates, Hindex; lia|done|].
      * by rewrite Hsame.
      * intros o Ho. rewrite Htrends; [eauto|by rewrite <- Horders].
    + split_and!; simpl; try done. by rewrite Hindex.
Qed.

Lemma SBB_MID_run (pred : PredictorHook) (n : nat) :
  (∀ s ps pe, pred s ps pe = Ok TREND_MID) →
  ∀ self_t self_s,
    MID_related self_t self_s →
    registered self_t →
    0 ≤ trade_index self_t →
    trade_index self_t + Z.of_nat n < Z.of_nat (length (trade_dates self_t)) →
    ∃ outs self_t' self_s',
      TWAPStrategy.run n self_t = Ok (outs, self_t') ∧
      SBBStrategy.run pred n self_s = Ok (outs, self_s').
Proof.
  intros Hpred. induction n as [|n IH]; intros self_t self_s Hrel Hreg H0 Hlt.
  - by exists [], self_t, self_s.
  - destruct (SBB_MID_step pred self_t self_s)
      as (out & self_s1 & calls & Hgen_t & Hgen_s & Hrel1); [done..|lia|].
    destruct (IH (base_generate_order_list self_t) self_s1)
      as (outs & self_t' & self_s' & Hrun_t & Hrun_s); [done|done|simpl; lia..|].
    exists (out :: outs), self_t', self_s'. cbn [TWAPStrategy.run SBBStrategy.run].
    rewrite Hgen_t, Hgen_s, !bind_Ok. cbn beta iota.
    by rewrite Hrun_t, Hrun_s, !bind_Ok.
Qed.

(** C4. SBB with a hook that always answers MID is TWAP.  For the same
    calendar of [N > 0] steps and the same parent orders, one per key,
    both registrations succeed, and over any number [n ≤ N] of steps, each
    generated with the calendar bounds of the step, the two strategies
    return the same lists of child orders, step by step. *)
Theorem SBB_MID_passthrough (pred : PredictorHook) (cal : Calendar)
    (orders : list Order) (n : nat) :
  calendar_wf cal →
  0 < cal_len cal →
  NoDup (key_of <$> orders) →
  (∀ s ps pe, pred s ps pe = Ok TREND_MID) →
  Z.of_nat n ≤ cal_len cal →
  ∃ self_t self_s outs self_t' self_s',
    TWAPStrategy.__init__ cal orders = Ok self_t ∧
    SBBStrategy.__init__ cal orders = Ok self_s ∧
    TWAPStrategy.run n self_t = Ok (outs, self_t') ∧
    SBBStrategy.run pred n self_s = Ok (outs, self_s').
Proof.
  intros Hwf HN Hnd Hpred Hn. pose proof (proj1 Hwf) as Hdates.
  set (self_t := mkStrategy (cal_dates cal) (cal_len cal) 0 orders
                   (assign_all (λ o, amount o / cal_len cal) orders ∅) ∅).
  set (self_s := mkStrategy (cal_dates cal) (cal_len cal) 0 orders
                   (assign_all (λ o, amount o / cal_len cal) orders ∅)
                   (assign_all (λ _, TREND_MID) orders ∅)).
  destruct (SBB_MID_run pred n Hpred self_t self_s)
    as (outs & self_t' & self_s' & Hrun_t & Hrun_s).
  - split_and!; try done. intros o Ho.
    by apply (assign_all_uniform (λ _, TREND_MID) (λ _, TREND_MID)).
  - intros o Ho. by apply (assign_all_is_Some (λ o, amount o / cal_len cal)).
  - done.
  - simpl. lia.
  - exists self_t, self_s, outs, self_t', self_s'.
    split_and!; [by apply TWAP_init_Ok|by apply SBB_init_Ok|done..].
Qed.

(** ** C3 *)

(** C3, on the code.  At step 3 (odd) of the calendar [0; 60; 120; 180],
    [generate_order_list] computes the window from the end of step 1
    (60) to one second before the start of step 3 (119), and then calls
    the hook with the stock alone: the hook receives no window, so a hook
    that answers LONG on that window is not heard, and the BUY order gets
    the base amount 33 instead of 66. *)
Theorem SBB_window_not_passed :
  let o := mkOrder "A" 100 0 180 BUY f_one in
  let self := mkStrategy [0; 60; 120; 180] 3 2 [o]
                {[ ("A", BUY) := 33 ]} {[ ("A", BUY) := TREND_MID ]} in
  SBBStrategy.pred_window (base_generate_order_list self) 120
    = Ok (Some 60, Some 119) ∧
  hook_LONG_on_window "A" (Some 60) (Some 119) = Ok TREND_LONG ∧
  SBBStrategy.generate_order_list hook_LONG_on_window self 120 180
    = Ok ([mkOrder "A" 33 120 180 BUY f_one],
          mkStrategy [0; 60; 120; 180] 3 3 [o]
            {[ ("A", BUY) := 33 ]} {[ ("A", BUY) := TREND_MID ]},
          [("A", None, None)]).
Proof. split_and!; reflexivity. Qed.

(** ** C8 and C9 *)

Lemma float_gt0_positive (x : spec_float) : float_gt0 x = true ↔ float_positive x.
Proof. by destruct x as [[]|[]| |[] ? ?]. Qed.

(** C8. Empty signal.  When the frame sampled for the stock and the window
    is empty, the EMA hook returns MID and raises nothing. *)
Theorem EMA_empty_signal_is_MID (Signal : Type)
    (sample_feature : Signal → string → option Time → option Time → DataFrame)
    (signal : Signal) (stock : string) (pred_start_time pred_end_time : option Time) :
  df_empty (sample_feature signal stock pred_start_time pred_end_time) = true →
  SBBEMAStrategy._pred_price_trend Signal sample_feature signal
    stock pred_start_time pred_end_time = Ok TREND_MID.
Proof.
  intros Hempty. unfold SBBEMAStrategy._pred_price_trend. by rewrite Hempty.
Qed.

(** C9. Sign of the signal.  When the sampled frame is not empty, the EMA
    hook reads its first cell [x] and returns LONG if [x > 0] and SHORT
    otherwise: LONG exactly for a float above zero, SHORT in particular
    for a zero of either sign. *)
Theorem EMA_zero_is_SHORT (Signal : Type)
    (sample_feature : Signal → string → option Time → option Time → DataFrame)
    (signal : Signal) (stock : string) (pred_start_time pred_end_time : option Time) :
  df_empty (sample_feature signal stock pred_start_time pred_end_time) = false →
  let trend := SBBEMAStrategy._pred_price_trend Signal sample_feature signal
                 stock pred_start_time pred_end_time in
  ∃ x,
    df_iloc00 (sample_feature signal stock pred_start_time pred_end_time) = Ok x ∧
    (trend = Ok TREND_LONG ∨ trend = Ok TREND_SHORT) ∧
    (trend = Ok TREND_LONG ↔ float_positive x) ∧
    (trend = Ok TREND_SHORT ↔ ¬ float_positive x) ∧
    (∀ s, x = S754_zero s → trend = Ok TREND_SHORT).
Proof.
  intros Hempty trend. unfold trend, SBBEMAStrategy._pred_price_trend.
  rewrite Hempty.
  destruct (sample_feature signal stock pred_start_time pred_end_time)
    as [|[|x row] rows]; [done..|].
  exists x. cbn [df_iloc00]. rewrite bind_Ok.
  pose proof (float_gt0_positive x) as Hpos.
  destruct (float_gt0 x) eqn:Hgt.
  - split_and!; [done|by left| | |].
    + split; [intros _; by apply Hpos|done].
    + split; [done|]. intros Hneg. destruct Hneg. by apply Hpos.
    + intros s ->. by destruct s.
  - assert (Hneg : ¬ float_positive x) by (intros Hx; apply Hpos in Hx; done).
    split_and!; [done|by right|split; [done|by intros ?]|split; done|done].
Qed.

(** * The theorems at concrete inputs *)

(** [ex_self] is what [__init__] builds. *)
Example ex_self_from_init : SBBStrategy.__init__ ex_cal ex_orders = Ok ex_self.
Proof. reflexivity. Qed.

(** C1 on the calendar of three steps: 100 is worked as 33 + 33 + 33. *)
Lemma TWAP_conservation_witness :
  calendar_wf ex_cal ∧
  0 < cal_len ex_cal ∧
  NoDup (key_of <$> ex_orders) ∧
  ex_buy ∈ ex_orders ∧
  ∃ self outs self',
    TWAPStrategy.__init__ ex_cal ex_orders = Ok self ∧
    trade_amount self !! key_of ex_buy = Some 33 ∧
    TWAPStrategy.run 3 self = Ok (outs, self') ∧
    total_for (key_of ex_buy) outs = 99.
Proof.
  assert (H1 : calendar_wf ex_cal) by (split; reflexivity).
  assert (H2 : 0 < cal_len ex_cal) by reflexivity.
  assert (H3 : NoDup (key_of <$> ex_orders)) by by_decide.
  assert (H4 : ex_buy ∈ ex_orders) by apply list_elem_of_here.
  split_and!; [done..|].
  destruct (TWAP_conservation ex_cal ex_orders ex_buy H1 H2 H3 H4)
    as (self & outs & self' & Hinit & Hbase & Hrun & _ & _ & Htot & _).
  exists self, outs, self'. split_and!; [exact Hinit|exact Hbase|exact Hrun|exact Htot].
Defined.

(** C2 with a hook that answers LONG: the BUY order gets 66 on step 1 and
    nothing on step 2. *)
Lemma SBB_decision_table_witness :
  (trade_index ex_self + 1) `mod` 2 = 1 ∧
  0 ≤ trade_index ex_self < Z.of_nat (length (trade_dates ex_self)) ∧
  registered ex_self ∧
  NoDup (key_of <$> trade_order_list ex_self) ∧
  answers (hook_const TREND_LONG) (λ _, TREND_LONG) (trade_order_list ex_self) ∧
  ex_buy ∈ trade_order_list ex_self ∧
  trade_amount ex_self !! key_of ex_buy = Some 33 ∧
  ∃ out1 self1 calls1 out2 self2 calls2,
    SBBStrategy.generate_order_list (hook_const TREND_LONG) ex_self 0 60
      = Ok (out1, self1, calls1) ∧
    SBBStrategy.generate_order_list (hook_const TREND_LONG) self1 60 120
      = Ok (out2, self2, calls2) ∧
    for_key (key_of ex_buy) out1 = [mkOrder "A" 66 0 60 BUY f_one] ∧
    for_key (key_of ex_buy) out2 = [].
Proof.
  assert (H1 : (trade_index ex_self + 1) `mod` 2 = 1) by reflexivity.
  assert (H2 : 0 ≤ trade_index ex_self < Z.of_nat (length (trade_dates ex_self)))
    by (simpl; lia).
  assert (H3 : registered ex_self) by each_order.
  assert (H4 : NoDup (key_of <$> trade_order_list ex_self)) by by_decide.
  assert (H5 : answers (hook_const TREND_LONG) (λ _, TREND_LONG)
                 (trade_order_list ex_self)) by (intros o _; reflexivity).
  assert (H6 : ex_buy ∈ trade_order_list ex_self) by apply list_elem_of_here.
  assert (H7 : trade_amount ex_self !! key_of ex_buy = Some 33) by reflexivity.
  split_and!; [done..|].
  destruct (SBB_decision_table (hook_const TREND_LONG) (λ _, TREND_LONG) ex_self
              0 60 60 120 ex_buy 33 H1 H2 H3 H4 H5 H6 H7)
    as (out1 & self1 & calls1 & out2 & self2 & calls2 & Hgen1 & Hgen2 & _ & Htable).
  destruct Htable as (_ & Hlong & _).
  destruct (Hlong eq_refl eq_refl) as [Hout1 Hout2].
  exists out1, self1, calls1, out2, self2, calls2.
  split_and!; [exact Hgen1|exact Hgen2|exact Hout1|exact Hout2].
Defined.

(** C4 over the three steps of the calendar. *)
Lemma SBB_MID_passthrough_witness :
  calendar_wf ex_cal ∧
  0 < cal_len ex_cal ∧
  NoDup (key_of <$> ex_orders) ∧
  (∀ s ps pe, hook_const TREND_MID s ps pe = Ok TREND_MID) ∧
  Z.of_nat 3 ≤ cal_len ex_cal ∧
  ∃ self_t self_s outs self_t' self_s',
    TWAPStrategy.__init__ ex_cal ex_orders = Ok self_t ∧
    SBBStrategy.__init__ ex_cal ex_orders = Ok self_s ∧
    TWAPStrategy.run 3 self_t = Ok (outs, self_t') ∧
    SBBStrategy.run (hook_const TREND_MID) 3 self_s = Ok (outs, self_s').
Proof.
  assert (H1 : calendar_wf ex_cal) by (split; reflexivity).
  assert (H2 : 0 < cal_len ex_cal) by reflexivity.
  assert (H3 : NoDup (key_of <$> ex_orders)) by by_decide.
  assert (H4 : ∀ s ps pe, hook_const TREND_MID s ps pe = Ok TREND_MID)
    by reflexivity.
  assert (H5 : Z.of_nat 3 ≤ cal_len ex_cal) by (simpl; lia).
  do 5 (split; [assumption|]).
  exact (SBB_MID_passthrough (hook_const TREND_MID) ex_cal ex_orders 3
           H1 H2 H3 H4 H5).
Defined.

(** C5 with a hook that answers SHORT: step 2 keeps what step 1 stored. *)
Lemma SBB_trend_persistence_witness :
  (trade_index ex_self + 1) `mod` 2 = 1 ∧
  0 ≤ trade_index ex_self < Z.of_nat (length (trade_dates ex_self)) ∧
  registered ex_self ∧
  answers (hook_const TREND_SHORT) (λ _, TREND_SHORT) (trade_order_list ex_self) ∧
  ∃ out1 self1 calls1 out2 self2 calls2,
    SBBStrategy.generate_order_list (hook_const TREND_SHORT) ex_self 0 60
      = Ok (out1, self1, calls1) ∧
    SBBStrategy.generate_order_list (hook_const TREND_SHORT) self1 60 120
      = Ok (out2, self2, calls2) ∧
    trade_trend self1 !! key_of ex_buy = Some TREND_SHORT ∧
    trade_trend self2 = trade_trend self1 ∧
    calls2 = [].
Proof.
  assert (H1 : (trade_index ex_self + 1) `mod` 2 = 1) by reflexivity.
  assert (H2 : 0 ≤ trade_index ex_self < Z.of_nat (length (trade_dates ex_self)))
    by (simpl; lia).
  assert (H3 : registered ex_self) by each_order.
  assert (H4 : answers (hook_const TREND_SHORT) (λ _, TREND_SHORT)
                 (trade_order_list ex_self)) by (intros o _; reflexivity).
  split_and!; [done..|].
  destruct (proj2 SBB_trend_persistence (hook_const TREND_SHORT) (λ _, TREND_SHORT)
              ex_self 0 60 60 120 H1 H2 H3 H4)
    as (out1 & self1 & calls1 & out2 & self2 & calls2
        & Hgen1 & Hgen2 & Hstored & _ & Hsame & Hcalls).
  exists out1, self1, calls1, out2, self2, calls2.
  split_and!; [exact Hgen1|exact Hgen2| |exact Hsame|exact Hcalls].
  apply (Hstored ex_buy). apply list_elem_of_here.
Defined.

(** C6 on two BUY orders for the same stock. *)
Lemma init_duplicate_key_fails_witness :
  let o1 := mkOrder "A" 100 0 180 BUY f_one in
  let o2 := mkOrder "A" 50 0 180 BUY f_one in
  key_of o1 = key_of o2 ∧
  calendar_wf ex_cal ∧
  0 < cal_len ex_cal ∧
  TWAPStrategy.__init__ ex_cal [o1; o2] = Raise DuplicateKey ∧
  SBBStrategy.__init__ ex_cal [o1; o2] = Raise DuplicateKey.
Proof.
  intros o1 o2.
  assert (H1 : key_of o1 = key_of o2) by reflexivity.
  assert (H2 : calendar_wf ex_cal) by (split; reflexivity).
  assert (H3 : 0 < cal_len ex_cal) by reflexivity.
  do 3 (split; [assumption|]).
  exact (proj2 (proj2 (init_duplicate_key_fails ex_cal [] [] [] o1 o2 H1)) H2 H3).
Defined.

(** C7 with the cursor on the last step of the calendar. *)
Lemma TWAP_step_out_of_range_witness :
  let self := mkStrategy [0; 60; 120; 180] 3 3 ex_orders
                {[ ("A", BUY) := 33; ("A", SELL) := 16 ]} ∅ in
  Z.of_nat (length (trade_dates self)) = trade_len self + 1 ∧
  trade_len self ≤ trade_index self ∧
  TWAPStrategy.generate_order_list self = Raise IndexError.
Proof.
  intros self.
  assert (H1 : Z.of_nat (length (trade_dates self)) = trade_len self + 1)
    by reflexivity.
  assert (H2 : trade_len self ≤ trade_index self) by (simpl; lia).
  split_and!; [done..|].
  exact (TWAP_step_out_of_range self H1 H2).
Defined.

(** C8 on an empty frame. *)
Lemma EMA_empty_signal_is_MID_witness :
  let sample_feature := λ (_ : unit) (_ : string) (_ _ : option Time), [] : DataFrame in
  df_empty (sample_feature () "A" None None) = true ∧
  SBBEMAStrategy._pred_price_trend unit sample_feature () "A" None None
    = Ok TREND_MID.
Proof.
  intros sample_feature.
  assert (H1 : df_empty (sample_feature () "A" None None) = true) by reflexivity.
  split; [done|].
  exact (EMA_empty_signal_is_MID unit sample_feature () "A" None None H1).
Defined.

(** C9 on a frame whose first cell is zero. *)
Lemma EMA_zero_is_SHORT_witness :
  let sample_feature :=
    λ (_ : unit) (_ : string) (_ _ : option Time), [[S754_zero false]] : DataFrame in
  df_empty (sample_feature () "A" None None) = false ∧
  SBBEMAStrategy._pred_price_trend unit sample_feature () "A" None None
    = Ok TREND_SHORT.
Proof.
  intros sample_feature.
  assert (H1 : df_empty (sample_feature () "A" None None) = false) by reflexivity.
  split; [done|].
  destruct (EMA_zero_is_SHORT unit sample_feature () "A" None None H1)
    as (x & Hx & _ & _ & _ & Hzero).
  apply (Hzero false). by injection Hx.
Defined.

(** C10 on the child order of step 1 under a hook that answers LONG. *)
Lemma child_orders_copy_parent_witness :
  let c := mkOrder "A" 66 0 60 BUY f_one in
  SBBStrategy.generate_order_list (hook_const TREND_LONG) ex_self 0 60
    = Ok ([c],
          mkStrategy [0; 60; 120; 180] 3 1 ex_orders
            {[ ("A", BUY) := 33; ("A", SELL) := 16 ]}
            {[ ("A", BUY) := TREND_LONG; ("A", SELL) := TREND_LONG ]},
          [("A", None, None); ("A", None, None)]) ∧
  c ∈ [c] ∧
  ∃ o a t,
    o ∈ trade_order_list ex_self ∧
    stock_id c = stock_id o ∧
    direction c = direction o ∧
    factor c = factor o ∧
    trade_amount ex_self !! key_of o = Some a ∧
    (if (trade_index ex_self + 1) `mod` 2 =? 1
     then hook_const TREND_LONG (stock_id o) None None = Ok t
     else trade_trend ex_self !! key_of o = Some t) ∧
    amount c = if decide (t = TREND_MID) then a else 2 * a.
Proof.
  intros c.
  assert (H1 : SBBStrategy.generate_order_list (hook_const TREND_LONG) ex_self 0 60
               = Ok ([c],
                     mkStrategy [0; 60; 120; 180] 3 1 ex_orders
                       {[ ("A", BUY) := 33; ("A", SELL) := 16 ]}
                       {[ ("A", BUY) := TREND_LONG; ("A", SELL) := TREND_LONG ]},
                     [("A", None, None); ("A", None, None)])) by reflexivity.
  assert (H2 : c ∈ [c]) by apply list_elem_of_here.
  split_and!; [done..|].
  exact (proj2 child_orders_copy_parent (hook_const TREND_LONG) ex_self 0 60
           _ _ _ H1 c H2).
Defined.

(** * Further properties of the code *)

(** ** Registration *)

Lemma for_each_cons_Raise {A S : Type} (x : A) (l : list A) (s : S)
    (body : A → S → Result S) (e : Exception) :
  body x s = Raise e → for_each (x :: l) s body = Raise e.
Proof. intros Hx. cbn [for_each]. by rewrite Hx. Qed.

(** When the loop returns, every iteration has returned. *)
Lemma for_each_Ok_each {A S : Type} (body : A → S → Result S) (l : list A) :
  ∀ s s', for_each l s body = Ok s' →
    ∀ x, x ∈ l → ∃ s1 s2, body x s1 = Ok s2.
Proof.
  induction l as [|y l IH]; intros s s' Hrun x Hx.
  - by apply elem_of_nil in Hx.
  - cbn [for_each] in Hrun. apply bind_inv in Hrun as (s1 & Hy & Hrun).
    apply elem_of_cons in Hx as [->|Hx]; [eauto|]. by apply (IH s1 s').
Qed.

Lemma assign_all_lookup_None {V : Type} (f : Order → V) (l : list Order)
    (k : TradeKey) :
  assign_all f l ∅ !! k = None ↔ k ∉ key_of <$> l.
Proof.
  split.
  - intros Hnone Hin. apply list_elem_of_fmap in Hin as (o & -> & Ho).
    destruct (assign_all_is_Some f l o ∅ Ho) as [v Hv]. congruence.
  - intros Hnot. by rewrite assign_all_other.
Qed.

(** What [__init__] has done when it returns. *)
Lemma TWAP_init_inv (cal : Calendar) (orders : list Order) (self : Strategy) :
  TWAPStrategy.__init__ cal orders = Ok self →
  self = mkStrategy (cal_dates cal) (cal_len cal) 0 orders
           (assign_all (λ o, amount o / cal_len cal) orders ∅) ∅.
Proof.
  intros Hinit.
  destruct (reset_inv cal orders)
    as [(Hwf & HN & Hnd & _) | [Hreset | [_ Hreset]]].
  - rewrite TWAP_init_Ok in Hinit by done. by simplify_eq.
  - unfold TWAPStrategy.__init__ in Hinit. by rewrite Hreset in Hinit.
  - unfold TWAPStrategy.__init__ in Hinit. by rewrite Hreset in Hinit.
Qed.

Lemma SBB_init_inv (cal : Calendar) (orders : list Order) (self : Strategy) :
  SBBStrategy.__init__ cal orders = Ok self →
  self = mkStrategy (cal_dates cal) (cal_len cal) 0 orders
           (assign_all (λ o, amount o / cal_len cal) orders ∅)
           (assign_all (λ _, TREND_MID) orders ∅).
Proof.
  intros Hinit.
  destruct (reset_inv cal orders)
    as [(Hwf & HN & Hnd & _) | [Hreset | [_ Hreset]]].
  - rewrite SBB_init_Ok in Hinit by done. by simplify_eq.
  - unfold SBBStrategy.__init__ in Hinit. by rewrite Hreset in Hinit.
  - unfold SBBStrategy.__init__ in Hinit. by rewrite Hreset in Hinit.
Qed.

(** X2. What the loop of [__init__] leaves behind.  When [__init__]
    returns, [trade_amount] has an entry for the key of every parent
    order and for no other key; SBB has stored the same amounts as TWAP,
    and the trend MID under the key of every parent order. *)
Theorem init_registers_exactly_the_keys (cal : Calendar) (orders : list Order)
    (self_t self_s : Strategy) :
  TWAPStrategy.__init__ cal orders = Ok self_t →
  SBBStrategy.__init__ cal orders = Ok self_s →
  (∀ k, is_Some (trade_amount self_t !! k)
          ↔ k ∈ key_of <$> trade_order_list self_t) ∧
  trade_amount self_s = trade_amount self_t ∧
  (∀ o, o ∈ trade_order_list self_s →
     trade_trend self_s !! key_of o = Some TREND_MID).
Proof.
  intros ->%TWAP_init_inv ->%SBB_init_inv.
  cbn [trade_amount trade_trend trade_order_list]. split_and!.
  - intros k. rewrite <- not_eq_None_Some, assign_all_lookup_None.
    split; [apply dec_stable|by intros ? ?].
  - done.
  - intros o Ho.
    by apply (assign_all_uniform (λ _, TREND_MID) (λ _, TREND_MID)).
Qed.

(** ** TWAPStrategy: when a call returns, and what it returns *)

Lemma py_getitem_Ok_inv {A : Type} (l : list A) (i : Z) (x : A) :
  0 ≤ i → py_getitem l i = Ok x →
  i < Z.of_nat (length l) ∧ l !! Z.to_nat i = Some x.
Proof.
  intros Hi. unfold py_getitem.
  destruct (Z.ltb_spec i 0); [lia|].
  destruct (Z.leb_spec 0 i); [|lia].
  destruct (Z.ltb_spec i (Z.of_nat (length l))); [|done]. simpl.
  destruct (l !! Z.to_nat i) eqn:Hl; [|done]. intros [= ->]. done.
Qed.

Lemma dict_getitem_Ok_inv `{Countable K} {V : Type} (d : gmap K V) (k : K) (v : V) :
  dict_getitem d k = Ok v → d !! k = Some v.
Proof. unfold dict_getitem. destruct (d !! k); by intros [= ->]. Qed.

(** A call that returns has found every parent order registered and both
    bounds of the step in the calendar, and has changed the cursor only. *)
Lemma TWAP_generate_inv (self : Strategy) (out : list Order) (self' : Strategy) :
  TWAPStrategy.generate_order_list self = Ok (out, self') →
  registered self ∧
  self' = base_generate_order_list self ∧
  ∃ tst tet,
    py_getitem (trade_dates self) (trade_index self + 1 - 1) = Ok tst ∧
    py_getitem (trade_dates self) (trade_index self + 1) = Ok tet ∧
    out = trade_order_list self ≫= TWAP_child self tst tet.
Proof.
  unfold TWAPStrategy.generate_order_list.
  cbn [base_generate_order_list set_trade_index trade_dates trade_index
       trade_order_list trade_amount].
  intros Hgen. apply bind_inv in Hgen as (tst & Htst & Hgen).
  apply bind_inv in Hgen as (tet & Htet & Hgen).
  apply bind_inv in Hgen as (ol & Hloop & Hgen).
  assert (Hreg : registered self).
  { intros o Ho.
    destruct (for_each_Ok_each _ _ _ _ Hloop o Ho) as (s1 & s2 & Hbody).
    apply bind_inv in Hbody as (a & Ha & _).
    apply dict_getitem_Ok_inv in Ha. eauto. }
  rewrite (TWAP_loop self tst tet) in Hloop by done.
  simplify_eq. split_and!; [done..|]. by exists tst, tet.
Qed.

Lemma TWAP_children_fields (self : Strategy) (tst tet : Time) (l : list Order) :
  (∀ o, o ∈ l → is_Some (trade_amount self !! key_of o)) →
  let out := l ≫= TWAP_child self tst tet in
  stock_id <$> out = stock_id <$> l ∧
  direction <$> out = direction <$> l ∧
  factor <$> out = factor <$> l ∧
  Some ∘ amount <$> out = (λ o, trade_amount self !! key_of o) <$> l ∧
  Forall (λ c, start_time c = tst ∧ end_time c = tet) out.
Proof.
  induction l as [|o l IH]; intros Hreg; [by split_and!|].
  destruct IH as (IH1 & IH2 & IH3 & IH4 & IH5).
  { intros o' Ho'. by apply Hreg, list_elem_of_further. }
  destruct (Hreg o) as [a Ha]; [apply list_elem_of_here|].
  assert (Hc : TWAP_child self tst tet o
               = [mkOrder (stock_id o) a tst tet (direction o) (factor o)])
    by (unfold TWAP_child; by rewrite Ha).
  cbv zeta. rewrite bind_cons, Hc. cbn [app]. rewrite !fmap_cons.
  split_and!.
  - simpl. by f_equal.
  - simpl. by f_equal.
  - simpl. by f_equal.
  - simpl. rewrite Ha. by f_equal.
  - by constructor.
Qed.

(** X3. When TWAP returns.  With the cursor at or after the start, a call
    of [generate_order_list] returns exactly when the step it generates
    lies in the calendar and every parent order has its entry in
    [trade_amount]. *)
Theorem TWAP_generate_returns_iff (self : Strategy) :
  0 ≤ trade_index self →
  (∃ out self', TWAPStrategy.generate_order_list self = Ok (out, self'))
  ↔ trade_index self + 1 < Z.of_nat (length (trade_dates self)) ∧ registered self.
Proof.
  intros H0. split.
  - intros (out & self' & Hgen).
    apply TWAP_generate_inv in Hgen as (Hreg & _ & tst & tet & _ & Htet & _).
    apply py_getitem_Ok_inv in Htet as [Hlt _]; [done|lia].
  - intros [Hlt Hreg].
    destruct (TWAP_generate_Ok self) as (tst & tet & _ & _ & Hgen); [done..|].
    eauto.
Qed.

(** X4. What a call of TWAP returns.  When [generate_order_list] returns,
    the list has one child order for each parent order, in the order of
    the parent orders, with their stocks, directions and factors and the
    registered amounts; every child order is stamped with the two
    calendar bounds of the step; and [self] is as before but for the
    cursor. *)
Theorem TWAP_generate_one_child_per_parent (self : Strategy)
    (out : list Order) (self' : Strategy) :
  0 ≤ trade_index self →
  TWAPStrategy.generate_order_list self = Ok (out, self') →
  ∃ tst tet,
    trade_dates self !! Z.to_nat (trade_index self) = Some tst ∧
    trade_dates self !! Z.to_nat (trade_index self + 1) = Some tet ∧
    stock_id <$> out = stock_id <$> trade_order_list self ∧
    direction <$> out = direction <$> trade_order_list self ∧
    factor <$> out = factor <$> trade_order_list self ∧
    Some ∘ amount <$> out
      = (λ o, trade_amount self !! key_of o) <$> trade_order_list self ∧
    Forall (λ c, start_time c = tst ∧ end_time c = tet) out ∧
    trade_dates self' = trade_dates self ∧
    trade_len self' = trade_len self ∧
    trade_order_list self' = trade_order_list self ∧
    trade_amount self' = trade_amount self ∧
    trade_trend self' = trade_trend self.
Proof.
  intros H0 Hgen.
  apply TWAP_generate_inv in Hgen as (Hreg & -> & tst & tet & Htst & Htet & ->).
  replace (trade_index self + 1 - 1) with (trade_index self) in Htst by lia.
  apply py_getitem_Ok_inv in Htst as [_ Htst]; [|lia].
  apply py_getitem_Ok_inv in Htet as [_ Htet]; [|lia].
  destruct (TWAP_children_fields self tst tet (trade_order_list self) Hreg)
    as (H1 & H2 & H3 & H4 & H5).
  exists tst, tet. by split_and!.
Qed.

Lemma TWAP_run_inv (n : nat) :
  ∀ self outs self',
    TWAPStrategy.run n self = Ok (outs, self') →
    ∀ out, out ∈ outs →
      registered self ∧
      ∃ tst tet, out = trade_order_list self ≫= TWAP_child self tst tet.
Proof.
  induction n as [|n IH]; intros self outs self' Hrun out Hout.
  - cbn [TWAPStrategy.run] in Hrun. simplify_eq. by apply elem_of_nil in Hout.
  - cbn [TWAPStrategy.run] in Hrun.
    apply bind_inv in Hrun as ([out1 self1] & Hgen & Hrun).
    apply bind_inv in Hrun as ([outs1 self2] & Hrun & Hret). simplify_eq.
    apply TWAP_generate_inv in Hgen as (Hreg & -> & tst & tet & _ & _ & ->).
    apply elem_of_cons in Hout as [->|Hout]; [eauto|].
    destruct (IH _ _ _ Hrun out Hout) as (_ & tst' & tet' & ->). eauto.
Qed.

(** X5. TWAP is uniform.  Over any run of calls that return, every call
    emits the same list of amounts: for each parent order, in order, the
    amount registered under its key. *)
Theorem TWAP_uniform_amounts (n : nat) (self : Strategy)
    (outs : list (list Order)) (self' : Strategy) :
  TWAPStrategy.run n self = Ok (outs, self') →
  (∀ out, out ∈ outs →
     Some ∘ amount <$> out
       = (λ o, trade_amount self !! key_of o) <$> trade_order_list self) ∧
  (∀ out1 out2, out1 ∈ outs → out2 ∈ outs → amount <$> out1 = amount <$> out2).
Proof.
  intros Hrun.
  assert (Hall : ∀ out, out ∈ outs →
            Some ∘ amount <$> out
              = (λ o, trade_amount self !! key_of o) <$> trade_order_list self).
  { intros out Hout.
    destruct (TWAP_run_inv n _ _ _ Hrun out Hout) as (Hreg & tst & tet & ->).
    by destruct (TWAP_children_fields self tst tet (trade_order_list self) Hreg)
      as (_ & _ & _ & H4 & _). }
  split; [done|]. intros out1 out2 H1 H2.
  apply (inj (fmap Some)). rewrite <- !list_fmap_compose.
  by rewrite (Hall out1 H1), (Hall out2 H2).
Qed.

(** ** TWAPStrategy: a parent order without an entry *)

Lemma dict_getitem_None `{Countable K} {V : Type} (d : gmap K V) (k : K) :
  d !! k = None → dict_getitem d k = Raise KeyError.
Proof. intros Hk. unfold dict_getitem. by rewrite Hk. Qed.

Lemma TWAP_loop_KeyError (self : Strategy) (tst tet : Time) (l : list Order) :
  (∃ o, o ∈ l ∧ trade_amount self !! key_of o = None) →
  ∀ acc,
    for_each l acc
      (λ order order_list,
         a ← dict_getitem (trade_amount self) (key_of order);
         Ok (order_list ++
               [mkOrder (stock_id order) a tst tet (direction order) (factor order)]))
    = Raise KeyError.
Proof.
  induction l as [|o l IH]; intros (o' & Ho' & Hnone) acc.
  - by apply elem_of_nil in Ho'.
  - cbn [for_each]. cbn beta.
    destruct (trade_amount self !! key_of o) as [a|] eqn:Ha.
    + rewrite (dict_getitem_Some _ _ _ Ha), !bind_Ok. apply IH.
      apply elem_of_cons in Ho' as [->|Ho']; [congruence|eauto].
    + by rewrite (dict_getitem_None _ _ Ha).
Qed.

(** X6. A parent order that was never registered.  When the step lies in
    the calendar but some parent order of the list has no entry in
    [trade_amount], [generate_order_list] of TWAP raises [KeyError] and
    returns no child order at all, not even for the parent orders that
    are registered. *)
Theorem TWAP_generate_KeyError (self : Strategy) (o : Order) :
  0 ≤ trade_index self →
  trade_index self + 1 < Z.of_nat (length (trade_dates self)) →
  o ∈ trade_order_list self →
  trade_amount self !! key_of o = None →
  TWAPStrategy.generate_order_list self = Raise KeyError.
Proof.
  intros H0 Hlt Ho Hnone. unfold TWAPStrategy.generate_order_list.
  cbn [base_generate_order_list set_trade_index trade_dates trade_index
       trade_order_list trade_amount].
  destruct (py_getitem_in_range (trade_dates self) (trade_index self + 1 - 1))
    as (tst & -> & _); [lia|].
  destruct (py_getitem_in_range (trade_dates self) (trade_index self + 1))
    as (tet & -> & _); [lia|].
  rewrite !bind_Ok. rewrite (TWAP_loop_KeyError self tst tet); [done|eauto].
Qed.

(** ** SBBStrategy: the hook of the base class, the shape of a call *)

Lemma for_each_ext {A S : Type} (body1 body2 : A → S → Result S) (l : list A) :
  (∀ x s, body1 x s = body2 x s) →
  ∀ s, for_each l s body1 = for_each l s body2.
Proof.
  intros Hext. induction l as [|x l IH]; intros s; [done|].
  cbn [for_each]. rewrite Hext. destruct (body2 x s) as [s1|e]; [|done].
  rewrite !bind_Ok. apply IH.
Qed.

Lemma SBB_loop_body_even_any_hook (pred1 pred2 : PredictorHook) (self : Strategy)
    (tst tet : Time) (o : Order)
    (s : list Order * gmap TradeKey Trend * list PredCall) :
  trade_index self `mod` 2 ≠ 1 →
  SBBStrategy.loop_body pred1 self tst tet o s
  = SBBStrategy.loop_body pred2 self tst tet o s.
Proof.
  intros Heven. destruct s as [[ol tr] calls]. unfold SBBStrategy.loop_body.
  by destruct (Z.eqb_spec (trade_index self `mod` 2) 1).
Qed.

(** X7. The base class works on even steps only.  With the hook of the
    base class, a call for an odd step with at least one parent order
    raises [NotImplementedError] (the window being in the calendar); a
    call for an even step does not depend on the hook at all. *)
Theorem SBB_base_hook_even_steps_only :
  (∀ (self : Strategy) (tst tet : Time),
     (trade_index self + 1) `mod` 2 = 1 →
     0 ≤ trade_index self ≤ Z.of_nat (length (trade_dates self)) →
     trade_order_list self ≠ [] →
     SBBStrategy.generate_order_list SBBStrategy._pred_price_trend self tst tet
       = Raise NotImplementedError) ∧
  (∀ (pred : PredictorHook) (self : Strategy) (tst tet : Time),
     (trade_index self + 1) `mod` 2 ≠ 1 →
     SBBStrategy.generate_order_list SBBStrategy._pred_price_trend self tst tet
       = SBBStrategy.generate_order_list pred self tst tet).
Proof.
  split.
  - intros self tst tet Hodd Hidx Hne.
    unfold SBBStrategy.generate_order_list.
    destruct (SBB_pred_window_Ok self tst Hidx) as ([ps pe] & ->).
    rewrite bind_Ok. cbn beta iota.
    cbn [base_generate_order_list set_trade_index trade_order_list].
    destruct (trade_order_list self) as [|o l]; [done|].
    rewrite (for_each_cons_Raise _ _ _ _ NotImplementedError); [done|].
    unfold SBBStrategy.loop_body.
    cbn [base_generate_order_list set_trade_index trade_index]. by rewrite Hodd.
  - intros pred self tst tet Heven. unfold SBBStrategy.generate_order_list.
    destruct (SBBStrategy.pred_window _ _) as [[ps pe]|e]; [|done].
    rewrite !bind_Ok. cbn beta iota.
    by rewrite (for_each_ext _ (SBBStrategy.loop_body pred
                                  (base_generate_order_list self) tst tet))
      by (intros o s; by apply SBB_loop_body_even_any_hook).
Qed.

(** The children the loop appends are those of some of the parent orders
    it runs over, one for each of them, in their order. *)
Lemma SBB_loop_children (pred : PredictorHook) (self : Strategy)
    (tst tet : Time) (l : list Order) :
  ∀ (ol : list Order) (tr : gmap TradeKey Trend) (calls : list PredCall)
    (ol' : list Order) (tr' : gmap TradeKey Trend) (calls' : list PredCall),
    for_each l (ol, tr, calls) (SBBStrategy.loop_body pred self tst tet)
      = Ok (ol', tr', calls') →
    ∃ parents new,
      ol' = ol ++ new ∧
      parents `sublist_of` l ∧
      Forall2 (λ o c, stock_id c = stock_id o ∧ direction c = direction o ∧
                      factor c = factor o ∧
                      start_time c = tst ∧ end_time c = tet) parents new.
Proof.
  induction l as [|o l IH]; intros ol tr calls ol' tr' calls' Hloop.
  - cbn [for_each] in Hloop. simplify_eq. exists [], [].
    split_and!; [by rewrite app_nil_r|done|constructor].
  - cbn [for_each] in Hloop.
    apply bind_inv in Hloop as ([[ol1 tr1] calls1] & Hbody & Hloop).
    apply IH in Hloop as (parents & new & -> & Hsub & Hall).
    apply SBB_loop_body_inv in Hbody as (t & _ & [->|(a & _ & ->)]).
    + exists parents, new. split_and!; [done|by apply sublist_cons|done].
    + eexists (o :: parents), (_ :: new).
      split_and!; [by rewrite <- app_assoc|by apply sublist_skip|].
      by constructor.
Qed.

(** X9. What a call of SBB returns and keeps.  When
    [generate_order_list] returns, the child orders are those of some of
    the parent orders, taken in order: each child order has the stock,
    the direction and the factor of its own parent order and the two
    times the caller passed, and no parent order has more than one child
    order.  The calendar, the parent orders and the amounts are as
    before, and so is the trend of every key that no parent order has. *)
Theorem SBB_generate_shape (pred : PredictorHook) (self : Strategy)
    (tst tet : Time) (out : list Order) (self' : Strategy) (calls : list PredCall) :
  SBBStrategy.generate_order_list pred self tst tet = Ok (out, self', calls) →
  (∃ parents,
     parents `sublist_of` trade_order_list self ∧
     Forall2 (λ o c, stock_id c = stock_id o ∧ direction c = direction o ∧
                     factor c = factor o ∧
                     start_time c = tst ∧ end_time c = tet) parents out) ∧
  (length out ≤ length (trade_order_list self))%nat ∧
  trade_dates self' = trade_dates self ∧
  trade_len self' = trade_len self ∧
  trade_order_list self' = trade_order_list self ∧
  trade_amount self' = trade_amount self ∧
  (∀ k, k ∉ key_of <$> trade_order_list self →
     trade_trend self' !! k = trade_trend self !! k).
Proof.
  unfold SBBStrategy.generate_order_list.
  intros Hgen. apply bind_inv in Hgen as ([ps pe] & _ & Hgen).
  apply bind_inv in Hgen as ([[ol tr] calls'] & Hloop & Hgen). simplify_eq.
  set (self1 := base_generate_order_list self) in *.
  change (trade_order_list self1) with (trade_order_list self) in Hloop.
  change (trade_trend self1) with (trade_trend self) in Hloop.
  destruct (SBB_loop_children _ _ _ _ _ _ _ _ _ _ _ Hloop)
    as (parents & new & Hnew & Hsub & Hall).
  cbn [app] in Hnew. subst new.
  split_and!; try reflexivity.
  - by exists parents.
  - rewrite <- (Forall2_length _ _ _ Hall). by apply sublist_length.
  - intros k Hk. cbn [trade_trend set_trade_trend].
    apply (for_each_inv (λ s, s.1.2 !! k = trade_trend self !! k))
      in Hloop; [done|done|].
    intros o [[ol1 tr1] calls1] [[ol2 tr2] calls2] Ho IH Hbody.
    simpl in IH |- *.
    apply SBB_loop_body_inv in Hbody as (t & Hstate & _).
    destruct (trade_index self1 `mod` 2 =? 1).
    + destruct Hstate as (_ & -> & _). rewrite lookup_insert_ne; [done|].
      intros <-. apply Hk. by apply list_elem_of_fmap_2.
    + by destruct Hstate as (_ & -> & _).
Qed.

(** ** SBBStrategy: what a run emits for a key *)

Lemma SBB_emit_amount (odd : bool) (t : Trend) (tst tet : Time) (o : Order) (a : Z) :
  Zsum (amount <$> SBB_emit odd t tst tet o a)
  = SBB_step_amount odd t (direction o) a.
Proof.
  unfold SBB_emit, SBB_step_amount.
  destruct t, odd, (direction o); simpl; lia.
Qed.

Lemma SBB_run_amount_pair (odd : bool) (n : nat) (t : Trend) (d : Direction) (a : Z) :
  SBB_run_amount odd (S (S n)) t d a = 2 * a + SBB_run_amount odd n t d a.
Proof.
  cbn [SBB_run_amount]. rewrite negb_involutive.
  unfold SBB_step_amount. destruct t, odd, d; simpl; lia.
Qed.

Lemma SBB_run_amount_even (odd : bool) (m : nat) (t : Trend) (d : Direction) (a : Z) :
  SBB_run_amount odd (2 * m) t d a = 2 * Z.of_nat m * a.
Proof.
  induction m as [|m IH]; [simpl; lia|].
  replace (2 * S m)%nat with (S (S (2 * m))) by lia.
  rewrite SBB_run_amount_pair, IH. lia.
Qed.

Lemma next_odd_next (self self' : Strategy) :
  trade_index self' = trade_index self + 1 →
  next_odd self' = negb (next_odd self).
Proof.
  unfold next_odd. intros ->.
  destruct (Z.eqb_spec ((trade_index self + 1 + 1) `mod` 2) 1),
           (Z.eqb_spec ((trade_index self + 1) `mod` 2) 1);
    simpl; try done; Z.div_mod_to_equations; lia.
Qed.

(** One call in a run: it returns, works every parent order with the
    answer of the hook, and keeps [SBB_inv]. *)
Lemma SBB_generate_in_run (pred : PredictorHook) (p : string → Trend)
    (self : Strategy) (tst tet : Time) :
  SBB_inv p self →
  answers pred p (trade_order_list self) →
  0 ≤ trade_index self ≤ Z.of_nat (length (trade_dates self)) →
  ∃ self' calls,
    SBBStrategy.generate_order_list pred self tst tet
      = Ok (trade_order_list self
              ≫= SBB_children (next_odd self) self
                   (λ o, Some (p (stock_id o))) tst tet,
            self', calls) ∧
    SBB_inv p self' ∧
    trade_index self' = trade_index self + 1 ∧
    trade_dates self' = trade_dates self ∧
    trade_order_list self' = trade_order_list self ∧
    trade_amount self' = trade_amount self.
Proof.
  intros [Hreg Htr] Hp Hidx. unfold next_odd in *.
  destruct (Z.eqb_spec ((trade_index self + 1) `mod` 2) 1) as [Hodd|Heven].
  - eexists _, _. split; [by apply (SBB_generate_odd pred p)|].
    split_and!; try reflexivity. split; [done|]. intros _ o Ho.
    by apply (assign_all_uniform (λ o, p (stock_id o)) (λ k, p k.1)).
  - specialize (Htr eq_refl).
    eexists _, _. split.
    + rewrite (SBB_generate_even pred) by (done || intros o Ho; rewrite Htr; eauto).
      do 3 f_equal. apply bind_ext_in. intros o Ho.
      unfold SBB_children. by rewrite Htr.
    + split_and!; try reflexivity. split; [done|]. intros _. exact Htr.
Qed.

Lemma total_for_cons (k : TradeKey) (out : list Order) (outs : list (list Order)) :
  total_for k (out :: outs) = Zsum (amount <$> for_key k out) + total_for k outs.
Proof. reflexivity. Qed.

(** What a run of SBB emits for the key of a parent order. *)
Lemma SBB_run_with_total (pred : PredictorHook) (p : string → Trend)
    (o : Order) (a : Z) (bounds : list (Time * Time)) :
  ∀ self,
    SBB_inv p self →
    answers pred p (trade_order_list self) →
    NoDup (key_of <$> trade_order_list self) →
    o ∈ trade_order_list self →
    trade_amount self !! key_of o = Some a →
    0 ≤ trade_index self →
    trade_index self + Z.of_nat (length bounds)
      ≤ Z.of_nat (length (trade_dates self)) + 1 →
    ∃ outs self',
      SBBStrategy.run_with pred bounds self = Ok (outs, self') ∧
      length outs = length bounds ∧
      total_for (key_of o) outs
        = SBB_run_amount (next_odd self) (length bounds)
            (p (stock_id o)) (direction o) a.
Proof.
  induction bounds as [|[tst tet] bounds IH];
    intros self Hinv Hp Hnd Ho Ha H0 Hlen.
  - by exists [], self.
  - cbn [length] in Hlen.
    destruct (SBB_generate_in_run pred p self tst tet)
      as (self1 & calls & Hgen & Hinv1 & Hidx1 & Hdates1 & Horders1 & Hamounts1);
      [done|done|lia|].
    destruct (IH self1) as (outs & self' & Hrun & Hlen' & Htotal).
    + done.
    + by rewrite Horders1.
    + by rewrite Horders1.
    + by rewrite Horders1.
    + by rewrite Hamounts1.
    + lia.
    + rewrite Hidx1, Hdates1. lia.
    + eexists (_ :: outs), self'. cbn [SBBStrategy.run_with].
      rewrite Hgen, bind_Ok. cbn beta iota. rewrite Hrun, bind_Ok.
      split_and!; [done|simpl; by rewrite Hlen'|].
      rewrite total_for_cons, Htotal, (next_odd_next self self1) by done.
      cbn [length SBB_run_amount]. f_equal.
      rewrite for_key_bind;
        [|intros o' c Hc; by apply SBB_children_key in Hc|done..].
      unfold SBB_children. rewrite Ha. apply SBB_emit_amount.
Qed.

Lemma TWAP_run_total (o : Order) (a : Z) (n : nat) (self : Strategy) :
  registered self →
  NoDup (key_of <$> trade_order_list self) →
  o ∈ trade_order_list self →
  trade_amount self !! key_of o = Some a →
  0 ≤ trade_index self →
  trade_index self + Z.of_nat n < Z.of_nat (length (trade_dates self)) →
  ∃ outs self',
    TWAPStrategy.run n self = Ok (outs, self') ∧
    total_for (key_of o) outs = Z.of_nat n * a.
Proof.
  intros Hreg Hnd Ho Ha H0 Hlt.
  destruct (TWAP_run_Ok n self) as (outs & self' & Hrun & Hlen & Houts); [done..|].
  exists outs, self'. split; [done|].
  rewrite (total_for_const _ a), Hlen; [done|].
  intros out Hout. destruct (Houts out Hout) as (tst & tet & ->).
  rewrite (for_key_bind (TWAP_child self tst tet)); [| |done..].
  - unfold TWAP_child. rewrite Ha. eauto.
  - intros o' c Hc. by apply TWAP_child_inv in Hc as (a' & _ & ->).
Qed.

(** X10. Over whole pairs of bars SBB hands out what TWAP does.  From a
    registered strategy about to generate an odd step, with parent orders
    of distinct keys and a hook that answers, any even number [n] of
    successive calls within the calendar return, whatever times the caller
    passes and whatever the hook answers; for every parent order the
    amounts emitted for its key add up to [n] times its base amount, which
    is also what [n] calls of TWAP emit. *)
Theorem SBB_even_run_total (pred : PredictorHook) (p : string → Trend)
    (self : Strategy) (o : Order) (a : Z) (bounds : list (Time * Time)) (m : nat) :
  registered self →
  (trade_index self + 1) `mod` 2 = 1 →
  answers pred p (trade_order_list self) →
  NoDup (key_of <$> trade_order_list self) →
  o ∈ trade_order_list self →
  trade_amount self !! key_of o = Some a →
  0 ≤ trade_index self →
  length bounds = (2 * m)%nat →
  trade_index self + Z.of_nat (length bounds)
    < Z.of_nat (length (trade_dates self)) →
  ∃ outs_s self_s outs_t self_t,
    SBBStrategy.run_with pred bounds self = Ok (outs_s, self_s) ∧
    TWAPStrategy.run (length bounds) self = Ok (outs_t, self_t) ∧
    total_for (key_of o) outs_s = Z.of_nat (length bounds) * a ∧
    total_for (key_of o) outs_t = Z.of_nat (length bounds) * a.
Proof.
  intros Hreg Hodd Hp Hnd Ho Ha H0 Heven Hlt.
  destruct (SBB_run_with_total pred p o a bounds self)
    as (outs_s & self_s & Hrun_s & _ & Htotal_s); [|done..|lia|].
  { split; [done|]. unfold next_odd. rewrite Hodd. done. }
  destruct (TWAP_run_total o a (length bounds) self)
    as (outs_t & self_t & Hrun_t & Htotal_t); [done..|].
  exists outs_s, self_s, outs_t, self_t. split_and!; [done..| |done].
  rewrite Htotal_s, Heven, SBB_run_amount_even. lia.
Qed.

(** X11. A last bar without its pair.  Under the same conditions an odd
    number [2 m + 1] of successive calls return, and the amounts emitted
    for the key of a parent order of base amount [a] add up to [2 m a] for
    the pairs, plus, for the last call: [a] if the hook answers MID,
    [2 a] if it answers SHORT for a SELL order or LONG for a BUY order,
    and nothing otherwise.  When the answer is not MID the total is
    [a] above or [a] below [(2 m + 1) a]. *)
Theorem SBB_odd_run_total (pred : PredictorHook) (p : string → Trend)
    (self : Strategy) (o : Order) (a : Z) (bounds : list (Time * Time)) (m : nat) :
  registered self →
  (trade_index self + 1) `mod` 2 = 1 →
  answers pred p (trade_order_list self) →
  NoDup (key_of <$> trade_order_list self) →
  o ∈ trade_order_list self →
  trade_amount self !! key_of o = Some a →
  0 ≤ trade_index self →
  length bounds = S (2 * m) →
  trade_index self + Z.of_nat (length bounds)
    ≤ Z.of_nat (length (trade_dates self)) + 1 →
  ∃ outs self',
    SBBStrategy.run_with pred bounds self = Ok (outs, self') ∧
    total_for (key_of o) outs
      = 2 * Z.of_nat m * a
        + match p (stock_id o), direction o with
          | TREND_MID, _ => a
          | TREND_SHORT, SELL | TREND_LONG, BUY => 2 * a
          | _, _ => 0
          end.
Proof.
  intros Hreg Hodd Hp Hnd Ho Ha H0 Hlen Hle.
  destruct (SBB_run_with_total pred p o a bounds self)
    as (outs & self' & Hrun & _ & Htotal); [|done..|].
  { split; [done|]. unfold next_odd. rewrite Hodd. done. }
  exists outs, self'. split; [done|].
  rewrite Htotal, Hlen. unfold next_odd. rewrite Hodd.
  cbn [Z.eqb Pos.eqb SBB_run_amount negb].
  rewrite SBB_run_amount_even. unfold SBB_step_amount.
  destruct (p (stock_id o)), (direction o); lia.
Qed.

(** ** The further properties at concrete inputs *)

(** X7 on the registered example, before step 1. *)
Lemma SBB_base_hook_even_steps_only_witness :
  (trade_index ex_self + 1) `mod` 2 = 1 ∧
  0 ≤ trade_index ex_self ≤ Z.of_nat (length (trade_dates ex_self)) ∧
  trade_order_list ex_self ≠ [] ∧
  SBBStrategy.generate_order_list SBBStrategy._pred_price_trend ex_self 0 60
    = Raise NotImplementedError.
Proof.
  assert (H1 : (trade_index ex_self + 1) `mod` 2 = 1) by reflexivity.
  assert (H2 : 0 ≤ trade_index ex_self ≤ Z.of_nat (length (trade_dates ex_self)))
    by (simpl; lia).
  assert (H3 : trade_order_list ex_self ≠ []) by discriminate.
  split_and!; [done..|].
  exact (proj1 SBB_base_hook_even_steps_only ex_self 0 60 H1 H2 H3).
Defined.

(** X2 on the calendar of three steps. *)
Lemma init_registers_exactly_the_keys_witness :
  let self_t := mkStrategy [0; 60; 120; 180] 3 0 ex_orders
                  {[ ("A", BUY) := 33; ("A", SELL) := 16 ]} ∅ in
  TWAPStrategy.__init__ ex_cal ex_orders = Ok self_t ∧
  SBBStrategy.__init__ ex_cal ex_orders = Ok ex_self ∧
  trade_amount ex_self = trade_amount self_t ∧
  ¬ is_Some (trade_amount self_t !! ("B", BUY)).
Proof.
  intros self_t.
  assert (H1 : TWAPStrategy.__init__ ex_cal ex_orders = Ok self_t) by reflexivity.
  assert (H2 : SBBStrategy.__init__ ex_cal ex_orders = Ok ex_self) by reflexivity.
  destruct (init_registers_exactly_the_keys ex_cal ex_orders self_t ex_self H1 H2)
    as (Hkeys & Hsame & _).
  do 2 (split; [assumption|]). split; [exact Hsame|].
  intros Hsome. apply (Hkeys ("B", BUY)) in Hsome. revert Hsome. by_decide.
Defined.

(** X3 on the registered example. *)
Lemma TWAP_generate_returns_iff_witness :
  0 ≤ trade_index ex_self ∧
  trade_index ex_self + 1 < Z.of_nat (length (trade_dates ex_self)) ∧
  registered ex_self ∧
  ∃ out self', TWAPStrategy.generate_order_list ex_self = Ok (out, self').
Proof.
  assert (H1 : 0 ≤ trade_index ex_self) by (simpl; lia).
  assert (H2 : trade_index ex_self + 1 < Z.of_nat (length (trade_dates ex_self)))
    by (simpl; lia).
  assert (H3 : registered ex_self) by each_order.
  split_and!; [done..|].
  exact (proj2 (TWAP_generate_returns_iff ex_self H1) (conj H2 H3)).
Defined.

(** X4 on step 1 of the registered example. *)
Lemma TWAP_generate_one_child_per_parent_witness :
  let out := [mkOrder "A" 33 0 60 BUY f_one; mkOrder "A" 16 0 60 SELL f_one] in
  let self' := base_generate_order_list ex_self in
  0 ≤ trade_index ex_self ∧
  TWAPStrategy.generate_order_list ex_self = Ok (out, self') ∧
  stock_id <$> out = stock_id <$> trade_order_list ex_self ∧
  Forall (λ c, start_time c = 0 ∧ end_time c = 60) out.
Proof.
  intros out self'.
  assert (H1 : 0 ≤ trade_index ex_self) by (simpl; lia).
  assert (H2 : TWAPStrategy.generate_order_list ex_self = Ok (out, self'))
    by reflexivity.
  destruct (TWAP_generate_one_child_per_parent ex_self out self' H1 H2)
    as (tst & tet & Htst & Htet & Hstock & _ & _ & _ & Htimes & _).
  split_and!; [done|done|exact Hstock|].
  injection Htst as <-. injection Htet as <-. exact Htimes.
Defined.

(** X5 over the three steps of the registered example. *)
Lemma TWAP_uniform_amounts_witness :
  ∃ outs self',
    TWAPStrategy.run 3 ex_self = Ok (outs, self') ∧
    ∀ out1 out2, out1 ∈ outs → out2 ∈ outs → amount <$> out1 = amount <$> out2.
Proof.
  assert (H : ∃ outs self', TWAPStrategy.run 3 ex_self = Ok (outs, self'))
    by (eexists _, _; reflexivity).
  destruct H as (outs & self' & H). exists outs, self'. split; [exact H|].
  exact (proj2 (TWAP_uniform_amounts 3 ex_self outs self' H)).
Defined.

(** X10 over steps 1 and 2 with a hook that answers LONG: 66 + 0. *)
Lemma SBB_even_run_total_witness :
  let bounds := [(0, 60); (60, 120)] in
  registered ex_self ∧
  (trade_index ex_self + 1) `mod` 2 = 1 ∧
  answers (hook_const TREND_LONG) (λ _, TREND_LONG) (trade_order_list ex_self) ∧
  NoDup (key_of <$> trade_order_list ex_self) ∧
  ex_buy ∈ trade_order_list ex_self ∧
  trade_amount ex_self !! key_of ex_buy = Some 33 ∧
  0 ≤ trade_index ex_self ∧
  length bounds = (2 * 1)%nat ∧
  trade_index ex_self + Z.of_nat (length bounds)
    < Z.of_nat (length (trade_dates ex_self)) ∧
  ∃ outs_s self_s outs_t self_t,
    SBBStrategy.run_with (hook_const TREND_LONG) bounds ex_self
      = Ok (outs_s, self_s) ∧
    TWAPStrategy.run 2 ex_self = Ok (outs_t, self_t) ∧
    total_for (key_of ex_buy) outs_s = 66 ∧
    total_for (key_of ex_buy) outs_t = 66.
Proof.
  intros bounds.
  assert (H1 : registered ex_self) by each_order.
  assert (H2 : (trade_index ex_self + 1) `mod` 2 = 1) by reflexivity.
  assert (H3 : answers (hook_const TREND_LONG) (λ _, TREND_LONG)
                 (trade_order_list ex_self)) by (intros o _; reflexivity).
  assert (H4 : NoDup (key_of <$> trade_order_list ex_self)) by by_decide.
  assert (H5 : ex_buy ∈ trade_order_list ex_self) by apply list_elem_of_here.
  assert (H6 : trade_amount ex_self !! key_of ex_buy = Some 33) by reflexivity.
  assert (H7 : 0 ≤ trade_index ex_self) by (simpl; lia).
  assert (H8 : length bounds = (2 * 1)%nat) by reflexivity.
  assert (H9 : trade_index ex_self + Z.of_nat (length bounds)
               < Z.of_nat (length (trade_dates ex_self))) by (simpl; lia).
  split_and!; [done..|].
  exact (SBB_even_run_total (hook_const TREND_LONG) (λ _, TREND_LONG) ex_self
           ex_buy 33 bounds 1 H1 H2 H3 H4 H5 H6 H7 H8 H9).
Defined.

(** X11 over the three steps with a hook that answers LONG: 66 + 0 + 66,
    more than the 100 of the parent order. *)
Lemma SBB_odd_run_total_witness :
  let bounds := [(0, 60); (60, 120); (120, 180)] in
  registered ex_self ∧
  (trade_index ex_self + 1) `mod` 2 = 1 ∧
  answers (hook_const TREND_LONG) (λ _, TREND_LONG) (trade_order_list ex_self) ∧
  NoDup (key_of <$> trade_order_list ex_self) ∧
  ex_buy ∈ trade_order_list ex_self ∧
  trade_amount ex_self !! key_of ex_buy = Some 33 ∧
  0 ≤ trade_index ex_self ∧
  length bounds = S (2 * 1) ∧
  trade_index ex_self + Z.of_nat (length bounds)
    ≤ Z.of_nat (length (trade_dates ex_self)) + 1 ∧
  ∃ outs self',
    SBBStrategy.run_with (hook_const TREND_LONG) bounds ex_self = Ok (outs, self') ∧
    total_for (key_of ex_buy) outs = 132.
Proof.
  intros bounds.
  assert (H1 : registered ex_self) by each_order.
  assert (H2 : (trade_index ex_self + 1) `mod` 2 = 1) by reflexivity.
  assert (H3 : answers (hook_const TREND_LONG) (λ _, TREND_LONG)
                 (trade_order_list ex_self)) by (intros o _; reflexivity).
  assert (H4 : NoDup (key_of <$> trade_order_list ex_self)) by by_decide.
  assert (H5 : ex_buy ∈ trade_order_list ex_self) by apply list_elem_of_here.
  assert (H6 : trade_amount ex_self !! key_of ex_buy = Some 33) by reflexivity.
  assert (H7 : 0 ≤ trade_index ex_self) by (simpl; lia).
  assert (H8 : length bounds = S (2 * 1)) by reflexivity.
  assert (H9 : trade_index ex_self + Z.of_nat (length bounds)
               ≤ Z.of_nat (length (trade_dates ex_self)) + 1) by (simpl; lia).
  split_and!; [done..|].
  exact (SBB_odd_run_total (hook_const TREND_LONG) (λ _, TREND_LONG) ex_self
           ex_buy 33 bounds 1 H1 H2 H3 H4 H5 H6 H7 H8 H9).
Defined.

(** X9 on step 1 with a hook that answers LONG: the one child order is
    that of the BUY order. *)
Lemma SBB_generate_shape_witness :
  ∃ out self' calls,
    SBBStrategy.generate_order_list (hook_const TREND_LONG) ex_self 0 60
      = Ok (out, self', calls) ∧
    (∃ parents,
       parents `sublist_of` trade_order_list ex_self ∧
       Forall2 (λ o c, stock_id c = stock_id o ∧ direction c = direction o ∧
                       factor c = factor o ∧
                       start_time c = 0 ∧ end_time c = 60) parents out) ∧
    trade_amount self' = trade_amount ex_self.
Proof.
  assert (H : ∃ out self' calls,
            SBBStrategy.generate_order_list (hook_const TREND_LONG) ex_self 0 60
            = Ok (out, self', calls)) by (eexists _, _, _; reflexivity).
  destruct H as (out & self' & calls & H). exists out, self', calls.
  destruct (SBB_generate_shape (hook_const TREND_LONG) ex_self 0 60
              out self' calls H) as (Hparents & _ & _ & _ & _ & Hamounts & _).
  split; [exact H|]. split; [exact Hparents|exact Hamounts].
Defined.

(** X6 on a list with a SELL order added after registration. *)
Lemma TWAP_generate_KeyError_witness :
  let self := mkStrategy [0; 60; 120; 180] 3 0 [ex_buy; ex_sell]
                {[ ("A", BUY) := 33 ]} ∅ in
  0 ≤ trade_index self ∧
  trade_index self + 1 < Z.of_nat (length (trade_dates self)) ∧
  ex_sell ∈ trade_order_list self ∧
  trade_amount self !! key_of ex_sell = None ∧
  TWAPStrategy.generate_order_list self = Raise KeyError.
Proof.
  intros self.
  assert (H1 : 0 ≤ trade_index self) by (simpl; lia).
  assert (H2 : trade_index self + 1 < Z.of_nat (length (trade_dates self)))
    by (simpl; lia).
  assert (H3 : ex_sell ∈ trade_order_list self)
    by apply list_elem_of_further, list_elem_of_here.
  assert (H4 : trade_amount self !! key_of ex_sell = None) by reflexivity.
  split_and!; [done..|].
  exact (TWAP_generate_KeyError self ex_sell H1 H2 H3 H4).
Defined.
